(** * Atmo: a home weather station for Raspberry Pi

    A shallow embedding of [atmo.py] and the properties of its sampling loop.

    The program talks to two sensor drivers, a UDP socket, a logger and the
    monotonic clock.  Those collaborators are modelled by an environment of
    oracles (what the n-th call answers) and a world that records what the
    program did to them; the program itself is written in a small
    state-and-exception monad over that world.  Python floats are Rocq's
    primitive binary64 floats. *)

From Stdlib Require Import ZArith List String Ascii Bool Floats Lia.
From Stdlib Require Import DecimalString.
Import ListNotations.

Local Open Scope string_scope.
Local Open Scope Z_scope.

Set Warnings "-inexact-float".

(** ** Python exceptions

    The exception classes the program names in its [except] clauses, the ones
    its collaborators raise, and their place in the built-in class tree. *)

Inductive exc_class : Type :=
| BaseException
| KeyboardInterrupt
| Exception
| OSError
| PermissionError
| TimeoutError
| RuntimeError
| NameError
| AttributeError
| ValueError.

Definition exc_class_eqb (c d : exc_class) : bool :=
  match c, d with
  | BaseException, BaseException
  | KeyboardInterrupt, KeyboardInterrupt
  | Exception, Exception
  | OSError, OSError
  | PermissionError, PermissionError
  | TimeoutError, TimeoutError
  | RuntimeError, RuntimeError
  | NameError, NameError
  | AttributeError, AttributeError
  | ValueError, ValueError => true
  | _, _ => false
  end.

(** The direct base class; [BaseException] is the root. *)
Definition base_class (c : exc_class) : option exc_class :=
  match c with
  | BaseException => None
  | KeyboardInterrupt => Some BaseException
  | Exception => Some BaseException
  | OSError => Some Exception
  | PermissionError => Some OSError
  | TimeoutError => Some OSError
  | RuntimeError => Some Exception
  | NameError => Some Exception
  | AttributeError => Some Exception
  | ValueError => Some Exception
  end.

Fixpoint issubclass_upto (depth : nat) (c d : exc_class) : bool :=
  exc_class_eqb c d ||
  match depth with
  | O => false
  | S depth' =>
      match base_class c with
      | Some b => issubclass_upto depth' b d
      | None => false
      end
  end.

(** The class tree is three levels deep. *)
Definition issubclass (c d : exc_class) : bool := issubclass_upto 3 c d.

Record exception : Type := mkExc { exc_type : exc_class; exc_msg : string }.

(** [except (C1, ..., Cn):] matches an exception whose class derives from one
    of the listed classes. *)
Definition exc_matches (e : exception) (classes : list exc_class) : bool :=
  existsb (issubclass (exc_type e)) classes.

(** ** Python string formatting of values

    [f"{x}"] of a float is [repr(x)]: the shortest decimal digit string that
    reads back as the same binary64 value, printed in fixed notation when the
    decimal point falls within the digits or close to them and in exponent
    notation otherwise.  This is the interpreter's behaviour, not code of the
    program; it is written out so that payloads can be computed. *)

Definition digits_of_Z (n : Z) : string :=
  NilZero.string_of_uint (N.to_uint (Z.to_N n)).

Fixpoint repeat_char (c : ascii) (n : nat) : string :=
  match n with
  | O => EmptyString
  | S n' => String c (repeat_char c n')
  end.

Definition zeros (n : Z) : string := repeat_char "0"%char (Z.to_nat n).

Fixpoint strip_trailing_zeros (s : string) : string :=
  match s with
  | EmptyString => EmptyString
  | String c rest =>
      match strip_trailing_zeros rest with
      | EmptyString => if Ascii.eqb c "0"%char then EmptyString else String c EmptyString
      | rest' => String c rest'
      end
  end.

Definition slen (s : string) : Z := Z.of_nat (String.length s).

(** A finite float [m * 2^e] and the rationals that round to it, over a
    common denominator: [dy_x / dy_den] is the float, [dy_lo / dy_den] and
    [dy_hi / dy_den] are halfway to its neighbours; the ends belong to the
    interval when the mantissa is even. *)
Record dyadic := mkDyadic { dy_x : Z; dy_lo : Z; dy_hi : Z; dy_den : Z; dy_closed : bool }.

Definition rounding_interval (m : positive) (e : Z) : dyadic :=
  let ulp := if 0 <=? e then 2 ^ e else 1 in
  let den := if 0 <=? e then 1 else 2 ^ (- e) in
  let num := Z.pos m * ulp in
  let below := if (Z.pos m =? 2 ^ 52) && (-1074 <? e) then ulp else 2 * ulp in
  {| dy_x := 4 * num; dy_lo := 4 * num - below; dy_hi := 4 * num + 2 * ulp;
     dy_den := 4 * den; dy_closed := Z.even (Z.pos m) |}.

(** The least [k] from the starting point on with [x < 10^k]. *)
Fixpoint find_decpt (fuel : nat) (k : Z) (d : dyadic) : Z :=
  match fuel with
  | O => k
  | S fuel' =>
      let below :=
        if 0 <=? k then dy_x d <? 10 ^ k * dy_den d
        else dy_x d * 10 ^ (- k) <? dy_den d in
      if below then k else find_decpt fuel' (k + 1) d
  end.

Definition decpt_estimate (m : positive) (e : Z) : Z :=
  (Z.log2 (Z.pos m) + e) * 30103 / 100000 - 2.

Definition in_interval (d : dyadic) (P B c : Z) : bool :=
  if dy_closed d
  then (dy_lo d * P <=? c * B) && (c * B <=? dy_hi d * P)
  else (dy_lo d * P <? c * B) && (c * B <? dy_hi d * P).

(** The [n]-digit decimal nearest to the float among those that read back as
    it, as an integer scaled by [10^(n-k)]. *)
Definition nearest_with (d : dyadic) (k n : Z) : option Z :=
  let s := n - k in
  let P := if 0 <=? s then 10 ^ s else 1 in
  let Q := if 0 <=? s then 1 else 10 ^ (- s) in
  let A := dy_x d * P in
  let B := dy_den d * Q in
  let c := A / B in
  let r := A - c * B in
  let down := in_interval d P B c in
  let up := in_interval d P B (c + 1) in
  let prefer_up := (B <? 2 * r) || ((B =? 2 * r) && Z.odd c) in
  match down, up with
  | true, true => Some (if prefer_up then c + 1 else c)
  | true, false => Some c
  | false, true => Some (c + 1)
  | false, false => None
  end.

Fixpoint shortest_from (fuel : nat) (d : dyadic) (k n : Z) : Z * Z :=
  match fuel with
  | O => (n, dy_x d * 10 ^ (n - k) / dy_den d)
  | S fuel' =>
      match nearest_with d k n with
      | Some c => (n, c)
      | None => shortest_from fuel' d k (n + 1)
      end
  end.

Definition shortest_digits (m : positive) (e : Z) : string * Z :=
  let d := rounding_interval m e in
  let k := find_decpt 8 (decpt_estimate m e) d in
  let '(n, c) := shortest_from 17 d k 1 in
  let ds := digits_of_Z c in
  (strip_trailing_zeros ds, k + (slen ds - n)).

Definition format_exponent (x : Z) : string :=
  let a := Z.abs x in
  (if x <? 0 then "-" else "+") ++ (if a <? 10 then "0" else "") ++ digits_of_Z a.

(** Digits [ds] with the decimal point after the first [decpt] of them. *)
Definition format_short (ds : string) (decpt : Z) : string :=
  let n := slen ds in
  if (decpt <=? -4) || (16 <? decpt) then
    substring 0 1 ds
    ++ (if 1 <? n then "." ++ substring 1 (String.length ds - 1) ds else "")
    ++ "e" ++ format_exponent (decpt - 1)
  else if decpt <=? 0 then "0." ++ zeros (- decpt) ++ ds
  else if n <=? decpt then ds ++ zeros (decpt - n) ++ ".0"
  else substring 0 (Z.to_nat decpt) ds ++ "."
       ++ substring (Z.to_nat decpt) (String.length ds - Z.to_nat decpt) ds.

Definition float_repr (x : float) : string :=
  match Prim2SF x with
  | S754_nan => "nan"
  | S754_infinity s => if s then "-inf" else "inf"
  | S754_zero s => if s then "-0.0" else "0.0"
  | S754_finite s m e =>
      let '(ds, decpt) := shortest_digits m e in
      (if s then "-" else "") ++ format_short ds decpt
  end.

(** [f"{x}"] of an optional float: [None] prints as its name. *)
Definition format_value (v : option float) : string :=
  match v with
  | Some x => float_repr x
  | None => "None"
  end.

(** ** Configuration

    The module-level constants read once from the process environment. *)

Record Config : Type := mkConfig {
  SENSORS_SAMPLE_INTERVAL : float;
  SENSOR_INDOOR_I2C_ADDR : Z;
  GRAPHITE_HOST : string;
  GRAPHITE_PORT : Z;
  GRAPHITE_TIMEOUT : float;
  METRICS_PREFIX : string;
  METRIC_TEMPERATURE_INDOOR : string;
  METRIC_TEMPERATURE_OUTDOOR : string;
  METRIC_PRESSURE : string;
  METRIC_HUMIDITY : string
}.

(** Every key left at its default; [GRAPHITE_HOST] has none and is given. *)
Definition default_config (host : string) : Config :=
  {| SENSORS_SAMPLE_INTERVAL := 5.0%float;
     SENSOR_INDOOR_I2C_ADDR := 0x76;
     GRAPHITE_HOST := host;
     GRAPHITE_PORT := 8125;
     GRAPHITE_TIMEOUT := 1.0%float;
     METRICS_PREFIX := "atmo";
     METRIC_TEMPERATURE_INDOOR := "temperature_indoor";
     METRIC_TEMPERATURE_OUTDOOR := "temperature_outdoor";
     METRIC_PRESSURE := "pressure";
     METRIC_HUMIDITY := "humidity" |}.

(** The two constants the program imports from the BME680 driver
    ([bme680.constants]). *)
Definition DISABLE_GAS_MEAS : Z := 0x00.
Definition OS_8X : Z := 4.

(** ** Data model *)

(** [@dataclass(frozen=True) class Sample]. *)
Record Sample : Type := mkSample {
  temperature : float;
  humidity : option float;
  pressure : option float
}.

(** The [data] attribute of the indoor driver object. *)
Record FieldData : Type := mkFieldData {
  data_temperature : float;
  data_pressure : option float;
  data_humidity : option float
}.

(** The indoor driver object: what the program configures and reads. *)
Record IndoorDevice : Type := mkIndoorDevice {
  gas_status : option Z;
  humidity_oversample : option Z;
  temperature_oversample : option Z;
  pressure_oversample : option Z;
  data : FieldData
}.

(** Sensor handles.  The program holds at most one object of each driver
    class; a handle names it. *)
Inductive IndoorSensor : Type := BME680 (i2c_addr : Z).
Inductive OutdoorSensor : Type := W1ThermSensor.

(** ** Environment and world *)

Inductive outcome (A : Type) : Type :=
| Returns (a : A)
| Raises (e : exception).
Arguments Returns {A} a.
Arguments Raises {A} e.

(** What the collaborators answer.  Each oracle is indexed by how many times
    the call was made before.  Every call that talks to a device or to the
    network may raise: the two constructors, the configuration calls of the
    indoor driver ([set_gas_status] and the three oversampling setters share
    [configure], being transfers on the same bus), the two reads and the
    datagram send. *)
Record Env : Type := mkEnv {
  config : Config;
  BME680_new : nat -> outcome unit;
  W1ThermSensor_new : nat -> outcome unit;
  configure : nat -> outcome unit;
  get_sensor_data : nat -> outcome (bool * FieldData);
  get_temperature : nat -> outcome float;
  sendto : nat -> outcome unit;
  monotonic : nat -> float
}.

Inductive Event : Type :=
| EOpenIndoor (addr : Z)
| EOpenOutdoor
| ESetGasStatus (v : Z)
| ESetHumidityOversample (v : Z)
| ESetTemperatureOversample (v : Z)
| ESetPressureOversample (v : Z)
| EGetSensorData
| EGetTemperature
| ESocket (fd : nat)
| ESetTimeout (fd : nat) (t : float)
| ESendTo (fd : nat) (payload : string) (host : string) (port : Z)
| EClose (fd : nat)
| ELogError (msg : string)
| ELogInfo (msg : string)
| ESleep (seconds : float).

Record World : Type := mkWorld {
  indoor : IndoorDevice;
  n_open_indoor : nat;
  n_open_outdoor : nat;
  n_configure : nat;
  n_read_indoor : nat;
  n_read_outdoor : nat;
  n_sendto : nat;
  n_clock : nat;
  next_fd : nat;
  open_sockets : list nat;
  trace : list Event
}.

Definition emit (e : Event) (w : World) : World :=
  {| indoor := indoor w;
     n_open_indoor := n_open_indoor w;
     n_open_outdoor := n_open_outdoor w;
     n_configure := n_configure w;
     n_read_indoor := n_read_indoor w;
     n_read_outdoor := n_read_outdoor w;
     n_sendto := n_sendto w;
     n_clock := n_clock w;
     next_fd := next_fd w;
     open_sockets := open_sockets w;
     trace := trace w ++ [e] |}.

Definition set_indoor (d : IndoorDevice) (w : World) : World :=
  {| indoor := d;
     n_open_indoor := n_open_indoor w;
     n_open_outdoor := n_open_outdoor w;
     n_configure := n_configure w;
     n_read_indoor := n_read_indoor w;
     n_read_outdoor := n_read_outdoor w;
     n_sendto := n_sendto w;
     n_clock := n_clock w;
     next_fd := next_fd w;
     open_sockets := open_sockets w;
     trace := trace w |}.

(** ** The monad: state, exceptions, and fuel for loops *)

Inductive result (A : Type) : Type :=
| Ok (a : A)
| Err (e : exception)
| Running.
Arguments Ok {A} a.
Arguments Err {A} e.
Arguments Running {A}.

Definition M (A : Type) : Type := Env -> World -> result A * World.

Definition ret {A} (a : A) : M A := fun _ w => (Ok a, w).

Definition raise {A} (e : exception) : M A := fun _ w => (Err e, w).

Definition bind {A B} (m : M A) (k : A -> M B) : M B :=
  fun env w =>
    match m env w with
    | (Ok a, w') => k a env w'
    | (Err e, w') => (Err e, w')
    | (Running, w') => (Running, w')
    end.

Declare Scope py_scope.
Delimit Scope py_scope with py.
Notation "x <- m ;; k" := (bind m (fun x => k))
  (at level 100, m at next level, right associativity) : py_scope.
Notation "m ;; k" := (bind m (fun _ => k))
  (at level 100, right associativity) : py_scope.
Local Open Scope py_scope.

Definition ask : M Env := fun env w => (Ok env, w).
Definition get : M World := fun _ w => (Ok w, w).
Definition modify (f : World -> World) : M unit := fun _ w => (Ok tt, f w).
Definition event (e : Event) : M unit := modify (emit e).

Definition lift_outcome {A} (o : outcome A) : M A :=
  match o with
  | Returns a => ret a
  | Raises e => raise e
  end.

(** [try: body  except classes: handler]. *)
Definition try_except {A} (body : M A) (classes : list exc_class)
    (handler : exception -> M A) : M A :=
  fun env w =>
    match body env w with
    | (Err e, w') =>
        if exc_matches e classes then handler e env w' else (Err e, w')
    | r => r
    end.

(** [try: body  finally: cleanup].  The cleanup runs on every exit; what it
    raises replaces the outcome of the body. *)
Definition try_finally {A} (body : M A) (cleanup : M unit) : M A :=
  fun env w =>
    match body env w with
    | (Running, w') => (Running, w')
    | (r, w') =>
        match cleanup env w' with
        | (Ok _, w'') => (r, w'')
        | (Err e, w'') => (Err e, w'')
        | (Running, w'') => (Running, w'')
        end
    end.

(** One pass of a loop body ends by falling through or [continue], by
    [break], or by [return v]. *)
Inductive loop_ctl (A : Type) : Type :=
| Continue
| Break
| Return (v : A).
Arguments Continue {A}.
Arguments Break {A}.
Arguments Return {A} v.

(** [while True: body].  [None]: the loop was left by [break] and the code
    after it runs; [Some v]: the function returned [v] from inside the loop.
    A loop still going when the fuel is spent is [Running]. *)
Fixpoint while_true {A} (fuel : nat) (body : M (loop_ctl A)) : M (option A) :=
  match fuel with
  | O => fun _ w => (Running, w)
  | S fuel' =>
      c <- body ;;
      match c with
      | Continue => while_true fuel' body
      | Break => ret None
      | Return v => ret (Some v)
      end
  end.

(** ** The collaborators

    Each call leaves an event in the trace; the calls that can fail take
    their outcome from the environment. *)

Definition count_open_indoor (w : World) : World :=
  {| indoor := indoor w;
     n_open_indoor := S (n_open_indoor w);
     n_open_outdoor := n_open_outdoor w;
     n_configure := n_configure w;
     n_read_indoor := n_read_indoor w;
     n_read_outdoor := n_read_outdoor w;
     n_sendto := n_sendto w;
     n_clock := n_clock w;
     next_fd := next_fd w;
     open_sockets := open_sockets w;
     trace := trace w |}.

Definition count_open_outdoor (w : World) : World :=
  {| indoor := indoor w;
     n_open_indoor := n_open_indoor w;
     n_open_outdoor := S (n_open_outdoor w);
     n_configure := n_configure w;
     n_read_indoor := n_read_indoor w;
     n_read_outdoor := n_read_outdoor w;
     n_sendto := n_sendto w;
     n_clock := n_clock w;
     next_fd := next_fd w;
     open_sockets := open_sockets w;
     trace := trace w |}.

Definition count_configure (w : World) : World :=
  {| indoor := indoor w;
     n_open_indoor := n_open_indoor w;
     n_open_outdoor := n_open_outdoor w;
     n_configure := S (n_configure w);
     n_read_indoor := n_read_indoor w;
     n_read_outdoor := n_read_outdoor w;
     n_sendto := n_sendto w;
     n_clock := n_clock w;
     next_fd := next_fd w;
     open_sockets := open_sockets w;
     trace := trace w |}.

Definition count_read_indoor (w : World) : World :=
  {| indoor := indoor w;
     n_open_indoor := n_open_indoor w;
     n_open_outdoor := n_open_outdoor w;
     n_configure := n_configure w;
     n_read_indoor := S (n_read_indoor w);
     n_read_outdoor := n_read_outdoor w;
     n_sendto := n_sendto w;
     n_clock := n_clock w;
     next_fd := next_fd w;
     open_sockets := open_sockets w;
     trace := trace w |}.

Definition count_read_outdoor (w : World) : World :=
  {| indoor := indoor w;
     n_open_indoor := n_open_indoor w;
     n_open_outdoor := n_open_outdoor w;
     n_configure := n_configure w;
     n_read_indoor := n_read_indoor w;
     n_read_outdoor := S (n_read_outdoor w);
     n_sendto := n_sendto w;
     n_clock := n_clock w;
     next_fd := next_fd w;
     open_sockets := open_sockets w;
     trace := trace w |}.

Definition count_sendto (w : World) : World :=
  {| indoor := indoor w;
     n_open_indoor := n_open_indoor w;
     n_open_outdoor := n_open_outdoor w;
     n_configure := n_configure w;
     n_read_indoor := n_read_indoor w;
     n_read_outdoor := n_read_outdoor w;
     n_sendto := S (n_sendto w);
     n_clock := n_clock w;
     next_fd := next_fd w;
     open_sockets := open_sockets w;
     trace := trace w |}.

Definition count_clock (w : World) : World :=
  {| indoor := indoor w;
     n_open_indoor := n_open_indoor w;
     n_open_outdoor := n_open_outdoor w;
     n_configure := n_configure w;
     n_read_indoor := n_read_indoor w;
     n_read_outdoor := n_read_outdoor w;
     n_sendto := n_sendto w;
     n_clock := S (n_clock w);
     next_fd := next_fd w;
     open_sockets := open_sockets w;
     trace := trace w |}.

Definition set_sockets (next : nat) (socks : list nat) (w : World) : World :=
  {| indoor := indoor w;
     n_open_indoor := n_open_indoor w;
     n_open_outdoor := n_open_outdoor w;
     n_configure := n_configure w;
     n_read_indoor := n_read_indoor w;
     n_read_outdoor := n_read_outdoor w;
     n_sendto := n_sendto w;
     n_clock := n_clock w;
     next_fd := next;
     open_sockets := socks;
     trace := trace w |}.

(** *** Logger and clock *)

Definition logger_error (msg : string) : M unit := event (ELogError msg).
Definition logger_info (msg : string) : M unit := event (ELogInfo msg).

(** [time.sleep(seconds)], for a duration the call accepts (not negative,
    not NaN): the requested pause is recorded. *)
Definition time_sleep (seconds : float) : M unit := event (ESleep seconds).

(** [time.monotonic()]. *)
Definition time_monotonic : M float :=
  fun env w => (Ok (monotonic env (n_clock w)), count_clock w).

(** *** Indoor driver *)

(** [BME680(addr)]: the constructor returns the handle or raises. *)
Definition new_BME680 (addr : Z) : M IndoorSensor :=
  event (EOpenIndoor addr) ;;
  w <- get ;;
  env <- ask ;;
  modify count_open_indoor ;;
  lift_outcome (BME680_new env (n_open_indoor w)) ;;
  ret (BME680 addr).

(** A configuration call of the driver is a transfer on the bus: it raises
    when the transfer fails, and the device takes the setting when it
    returns. *)
Definition configure_call (e : Event) (set : IndoorDevice -> IndoorDevice)
    : M unit :=
  event e ;;
  w <- get ;;
  env <- ask ;;
  modify count_configure ;;
  lift_outcome (configure env (n_configure w)) ;;
  modify (fun w => set_indoor (set (indoor w)) w).

Definition set_gas_status (sensor : IndoorSensor) (v : Z) : M unit :=
  configure_call (ESetGasStatus v)
    (fun d => {| gas_status := Some v;
                 humidity_oversample := humidity_oversample d;
                 temperature_oversample := temperature_oversample d;
                 pressure_oversample := pressure_oversample d;
                 data := data d |}).

Definition set_humidity_oversample (sensor : IndoorSensor) (v : Z) : M unit :=
  configure_call (ESetHumidityOversample v)
    (fun d => {| gas_status := gas_status d;
                 humidity_oversample := Some v;
                 temperature_oversample := temperature_oversample d;
                 pressure_oversample := pressure_oversample d;
                 data := data d |}).

Definition set_temperature_oversample (sensor : IndoorSensor) (v : Z) : M unit :=
  configure_call (ESetTemperatureOversample v)
    (fun d => {| gas_status := gas_status d;
                 humidity_oversample := humidity_oversample d;
                 temperature_oversample := Some v;
                 pressure_oversample := pressure_oversample d;
                 data := data d |}).

Definition set_pressure_oversample (sensor : IndoorSensor) (v : Z) : M unit :=
  configure_call (ESetPressureOversample v)
    (fun d => {| gas_status := gas_status d;
                 humidity_oversample := humidity_oversample d;
                 temperature_oversample := temperature_oversample d;
                 pressure_oversample := Some v;
                 data := data d |}).

(** [sensor.get_sensor_data()]: raises, or returns whether new data were
    stored in [sensor.data]. *)
Definition sensor_get_sensor_data (sensor : IndoorSensor) : M bool :=
  event EGetSensorData ;;
  w <- get ;;
  env <- ask ;;
  modify count_read_indoor ;;
  r <- lift_outcome (get_sensor_data env (n_read_indoor w)) ;;
  let '(status, d) := r in
  (if status
   then modify (fun w =>
          set_indoor {| gas_status := gas_status (indoor w);
                        humidity_oversample := humidity_oversample (indoor w);
                        temperature_oversample := temperature_oversample (indoor w);
                        pressure_oversample := pressure_oversample (indoor w);
                        data := d |} w)
   else ret tt) ;;
  ret status.

(** [sensor.data]. *)
Definition sensor_data (sensor : IndoorSensor) : M FieldData :=
  w <- get ;; ret (data (indoor w)).

(** *** Outdoor driver *)

(** [W1ThermSensor()]. *)
Definition new_W1ThermSensor : M OutdoorSensor :=
  event EOpenOutdoor ;;
  w <- get ;;
  env <- ask ;;
  modify count_open_outdoor ;;
  lift_outcome (W1ThermSensor_new env (n_open_outdoor w)) ;;
  ret W1ThermSensor.

(** [sensor.get_temperature()]: returns the temperature, or raises. *)
Definition sensor_get_temperature (sensor : OutdoorSensor) : M float :=
  event EGetTemperature ;;
  w <- get ;;
  env <- ask ;;
  modify count_read_outdoor ;;
  lift_outcome (get_temperature env (n_read_outdoor w)).

(** *** Sockets *)

(** [socket.socket(AF_INET, SOCK_DGRAM)]. *)
Definition socket_socket : M nat :=
  w <- get ;;
  let fd := next_fd w in
  modify (set_sockets (S fd) (fd :: open_sockets w)) ;;
  event (ESocket fd) ;;
  ret fd.

(** [sock.settimeout(timeout)], for a timeout the socket library accepts
    (see [timeout_accepted]). *)
Definition socket_settimeout (sock : nat) (timeout : float) : M unit :=
  event (ESetTimeout sock timeout).

(** [sock.sendto(payload, (host, port))]. *)
Definition socket_sendto (sock : nat) (payload : string) (host : string)
    (port : Z) : M unit :=
  event (ESendTo sock payload host port) ;;
  w <- get ;;
  env <- ask ;;
  modify count_sendto ;;
  lift_outcome (sendto env (n_sendto w)).

Definition remove_fd (fd : nat) (l : list nat) : list nat :=
  filter (fun x => negb (Nat.eqb x fd)) l.

Definition socket_close (sock : nat) : M unit :=
  w <- get ;;
  modify (set_sockets (next_fd w) (remove_fd sock (open_sockets w))) ;;
  event (EClose sock).

(** ** The program *)

(** One pass of the [while True] loop of [get_indoor_sensor]: the [try]
    returns the handle out of the function; on the two listed errors the
    handler logs, sleeps and continues. *)
Definition get_indoor_sensor_pass (error_interval : float)
    : M (loop_ctl (option IndoorSensor)) :=
  try_except
    (env <- ask ;;
     sensor <- new_BME680 (SENSOR_INDOOR_I2C_ADDR (config env)) ;;
     ret (Return (Some sensor)))
    [RuntimeError; PermissionError]
    (fun _ =>
       logger_error ("Sensor not found. Retrying in "
                     ++ float_repr error_interval ++ " second(s)...") ;;
       time_sleep error_interval ;;
       ret Continue).

(** [get_indoor_sensor(error_interval)].  [return None] follows the loop. *)
Definition get_indoor_sensor (fuel : nat) (error_interval : float)
    : M (option IndoorSensor) :=
  left_by <- while_true fuel (get_indoor_sensor_pass error_interval) ;;
  match left_by with
  | Some v => ret v
  | None => ret None
  end.

(** [get_outdoor_sensor()]. *)
Definition get_outdoor_sensor : M (option OutdoorSensor) :=
  try_except
    (sensor <- new_W1ThermSensor ;; ret (Some sensor))
    [Exception]
    (fun _ => ret None).

(** [initalize_indoor_sensor(sensor, oversampling)]. *)
Definition initalize_indoor_sensor (sensor : IndoorSensor) (oversampling : Z)
    : M unit :=
  set_gas_status sensor DISABLE_GAS_MEAS ;;
  set_humidity_oversample sensor oversampling ;;
  set_temperature_oversample sensor oversampling ;;
  set_pressure_oversample sensor oversampling.

(** [get_indoor_sample(sensor)].  The [try] either binds [status] ([inl]) or
    its handler returns from the function ([inr]). *)
Definition get_indoor_sample (sensor : IndoorSensor) : M (option Sample) :=
  r <- try_except
         (status <- sensor_get_sensor_data sensor ;; ret (inl status))
         [OSError]
         (fun _ => initalize_indoor_sensor sensor OS_8X ;; ret (inr None)) ;;
  match r with
  | inr returned => ret returned
  | inl status =>
      if (status : bool) then
        d <- sensor_data sensor ;;
        ret (Some {| temperature := data_temperature d;
                     pressure := data_pressure d;
                     humidity := data_humidity d |})
      else ret None
  end.

(** [get_outdoor_sample(sensor)]. *)
Definition get_outdoor_sample (sensor : OutdoorSensor) : M Sample :=
  t <- sensor_get_temperature sensor ;;
  ret {| temperature := t; humidity := None; pressure := None |}.

(** The text of one metric; it is ASCII, so encoding leaves it as it is. *)
Definition metric_payload (prefix metric_name : string)
    (metric_value : option float) (metric_type : string) : string :=
  prefix ++ "." ++ metric_name ++ ":" ++ format_value metric_value
         ++ "|" ++ metric_type.

(** [send_metric(metric_name, metric_value, metric_type, prefix, timeout)]. *)
Definition send_metric (metric_name : string) (metric_value : option float)
    (metric_type : string) (prefix : string) (timeout : float) : M unit :=
  sock <- socket_socket ;;
  socket_settimeout sock timeout ;;
  try_finally
    (try_except
       (env <- ask ;;
        socket_sendto sock
          (metric_payload prefix metric_name metric_value metric_type)
          (GRAPHITE_HOST (config env)) (GRAPHITE_PORT (config env)))
       [OSError]
       (fun _ => ret tt))
    (socket_close sock).

(** A call that leaves [metric_type], [prefix] and [timeout] at their
    defaults. *)
Definition send_metric_default (metric_name : string)
    (metric_value : option float) : M unit :=
  env <- ask ;;
  send_metric metric_name metric_value "g"
    (METRICS_PREFIX (config env)) (GRAPHITE_TIMEOUT (config env)).

(** [capture_sample(indoor_sensor, outdoor_sensor)].  A handle and a sample
    are objects without [__bool__] or [__len__]: they are true, [None] is
    false. *)
Definition capture_sample (indoor_sensor : option IndoorSensor)
    (outdoor_sensor : option OutdoorSensor) : M unit :=
  env <- ask ;;
  match indoor_sensor with
  | Some sensor =>
      r <- get_indoor_sample sensor ;;
      match r with
      | Some indoor_sample =>
          send_metric_default (METRIC_HUMIDITY (config env))
            (humidity indoor_sample) ;;
          send_metric_default (METRIC_PRESSURE (config env))
            (pressure indoor_sample) ;;
          send_metric_default (METRIC_TEMPERATURE_INDOOR (config env))
            (Some (temperature indoor_sample))
      | None => logger_error "Unable to read data from the indoor sensor"
      end
  | None => ret tt
  end ;;
  match outdoor_sensor with
  | Some sensor =>
      outdoor_sample <- get_outdoor_sample sensor ;;
      send_metric_default (METRIC_TEMPERATURE_OUTDOOR (config env))
        (Some (temperature outdoor_sample))
  | None => ret tt
  end.

(** [with ensure_duration(expected_duration): body].  The generator runs to
    its [yield], the body runs, and the generator resumes; an exception of
    the body passes through the [yield] and skips the rest. *)
Definition ensure_duration (expected_duration : float) (body : M unit)
    : M unit :=
  time_start <- time_monotonic ;;
  body ;;
  time_end <- time_monotonic ;;
  let duration := PrimFloat.sub time_end time_start in
  if PrimFloat.ltb duration expected_duration
  then time_sleep (PrimFloat.sub expected_duration duration)
  else ret tt.

(** *** Names in [main]

    [main] binds [interval], [sensor_outdoor] and [sensor_indoor]; any other
    name it mentions is looked up among the names the module binds, and a
    name bound nowhere raises [NameError]. *)

Inductive pyobj : Type :=
| PyNone
| PyFloat (x : float)
| PyIndoor (s : IndoorSensor)
| PyOutdoor (s : OutdoorSensor)
| PyGlobal (name : string).

Definition truthy (v : pyobj) : bool :=
  match v with
  | PyNone => false
  | PyFloat x => negb (PrimFloat.eqb x 0%float)
  | PyIndoor _ | PyOutdoor _ | PyGlobal _ => true
  end.

Definition module_globals : list string :=
  [ "socket"; "time"; "contextmanager"; "dataclass"; "Optional"; "structlog";
    "BME680"; "DISABLE_GAS_MEAS"; "OS_8X"; "config"; "W1ThermSensor";
    "SENSORS_SAMPLE_INTERVAL"; "SENSOR_INDOOR_I2C_ADDR"; "GRAPHITE_HOST";
    "GRAPHITE_PORT"; "GRAPHITE_TIMEOUT"; "METRICS_PREFIX";
    "METRIC_TEMPERATURE_INDOOR"; "METRIC_TEMPERATURE_OUTDOOR";
    "METRIC_PRESSURE"; "METRIC_HUMIDITY"; "logger"; "IndoorSensor";
    "OutdoorSensor"; "Sample"; "get_indoor_sensor"; "get_outdoor_sensor";
    "initalize_indoor_sensor"; "get_indoor_sample"; "get_outdoor_sample";
    "send_metric"; "capture_sample"; "ensure_duration"; "main" ].

Fixpoint lookup_local (name : string) (locals : list (string * pyobj))
    : option pyobj :=
  match locals with
  | [] => None
  | (n, v) :: rest => if String.eqb n name then Some v else lookup_local name rest
  end.

Definition load_name (locals : list (string * pyobj)) (name : string)
    : M pyobj :=
  match lookup_local name locals with
  | Some v => ret v
  | None =>
      if existsb (String.eqb name) module_globals
      then ret (PyGlobal name)
      else raise {| exc_type := NameError;
                    exc_msg := "name '" ++ name ++ "' is not defined" |}
  end.

(** [a and b]: [b] is evaluated only when [a] is true. *)
Definition py_and (a b : M pyobj) : M pyobj :=
  x <- a ;;
  if truthy x then b else ret x.

Definition of_indoor (s : option IndoorSensor) : pyobj :=
  match s with Some h => PyIndoor h | None => PyNone end.

Definition of_outdoor (s : option OutdoorSensor) : pyobj :=
  match s with Some h => PyOutdoor h | None => PyNone end.

(** [main(interval)].  [fuel] bounds the passes of each of its two loops. *)
Definition main (fuel : nat) (interval : float) : M unit :=
  env <- ask ;;
  sensor_outdoor <- get_outdoor_sensor ;;
  sensor_indoor <- get_indoor_sensor fuel
                     (SENSORS_SAMPLE_INTERVAL (config env)) ;;
  let locals := [ ("interval", PyFloat interval);
                  ("sensor_outdoor", of_outdoor sensor_outdoor);
                  ("sensor_indoor", of_indoor sensor_indoor) ] in
  both <- py_and (load_name locals "sensor_outdoor")
                 (load_name locals "sendor_indoor") ;;
  if negb (truthy both) then
    logger_error "Unable to acquire any sensor, exiting"
  else
    logger_info "Sensors acquired" ;;
    match sensor_indoor with
    | Some sensor => initalize_indoor_sensor sensor OS_8X
    | None =>
        raise {| exc_type := AttributeError;
                 exc_msg := "'NoneType' object has no attribute 'set_gas_status'" |}
    end ;;
    while_true fuel
      (ensure_duration interval
         (capture_sample sensor_indoor sensor_outdoor) ;;
       ret (@Continue unit)) ;;
    ret tt.

(** ** Observations and assumptions on the collaborators *)

Local Open Scope list_scope.

(** The payloads handed to [sendto], oldest first. *)
Fixpoint datagrams (t : list Event) : list string :=
  match t with
  | [] => []
  | ESendTo _ payload _ _ :: rest => payload :: datagrams rest
  | _ :: rest => datagrams rest
  end.

(** The driver calls one run of [initalize_indoor_sensor] makes. *)
Definition initialize_events (oversampling : Z) : list Event :=
  [ ESetGasStatus DISABLE_GAS_MEAS;
    ESetHumidityOversample oversampling;
    ESetTemperatureOversample oversampling;
    ESetPressureOversample oversampling ].

(** The socket calls of one [send_metric]. *)
Definition send_events (fd : nat) (timeout : float) (payload host : string)
    (port : Z) : list Event :=
  [ ESocket fd; ESetTimeout fd timeout; ESendTo fd payload host port;
    EClose fd ].

(** A low-level I/O fault: [OSError] or a class derived from it. *)
Definition io_fault (e : exception) : bool := exc_matches e [OSError].

(** An open failure the acquisition loop retries on. *)
Definition recoverable (e : exception) : bool :=
  exc_matches e [RuntimeError; PermissionError].

(** The indoor read keeps to its interface: it returns, or raises an I/O
    fault. *)
Definition read_conforms (o : outcome (bool * FieldData)) : Prop :=
  match o with
  | Returns _ => True
  | Raises e => io_fault e = true
  end.

(** The datagram channel keeps to its interface: a send goes through, or
    fails with an [OSError] (unreachable network, timeout). *)
Definition send_conforms (o : outcome unit) : Prop :=
  match o with
  | Returns _ => True
  | Raises e => io_fault e = true
  end.

Definition network_conforms (env : Env) : Prop :=
  forall n, send_conforms (sendto env n).

(** What [k] failed attempts at opening the indoor sensor leave in the
    trace: each is the attempt, the error line and the pause. *)
Fixpoint retry_events (addr : Z) (error_interval : float) (k : nat)
    : list Event :=
  match k with
  | O => []
  | S k' =>
      [ EOpenIndoor addr;
        ELogError ("Sensor not found. Retrying in "
                   ++ float_repr error_interval ++ " second(s)...")%string;
        ESleep error_interval ] ++ retry_events addr error_interval k'
  end.

(** The first [k] attempts from the current one on fail with an error the
    loop retries on. *)
Definition fails_recoverably (env : Env) (w : World) (k : nat) : Prop :=
  forall i, (i < k)%nat ->
    exists e, BME680_new env (n_open_indoor w + i) = Raises e /\
              recoverable e = true.

(** What a world shows of sampling: the reads, the sends, the clock
    readings and the state of the indoor device. *)
Definition sampling_footprint (w : World)
    : nat * nat * nat * nat * IndoorDevice :=
  (n_read_indoor w, n_read_outdoor w, n_sendto w, n_clock w, indoor w).

(** *** Concrete worlds and environments *)

Definition fresh_device : IndoorDevice :=
  {| gas_status := None;
     humidity_oversample := None;
     temperature_oversample := None;
     pressure_oversample := None;
     data := {| data_temperature := 0%float;
                data_pressure := None;
                data_humidity := None |} |}.

Definition initial_world : World :=
  {| indoor := fresh_device;
     n_open_indoor := 0;
     n_open_outdoor := 0;
     n_configure := 0;
     n_read_indoor := 0;
     n_read_outdoor := 0;
     n_sendto := 0;
     n_clock := 0;
     next_fd := 3;
     open_sockets := [];
     trace := [] |}.

Definition not_found : exception :=
  {| exc_type := RuntimeError; exc_msg := "Unable to identify BME680" |}.

Definition unreachable : exception :=
  {| exc_type := OSError; exc_msg := "Network is unreachable" |}.

Definition remote_io : exception :=
  {| exc_type := OSError; exc_msg := "Remote I/O error" |}.

Definition scenario_data : FieldData :=
  {| data_temperature := 21.5%float;
     data_pressure := Some 1013.0%float;
     data_humidity := Some 40.2%float |}.

(** Both sensors answer at once, the collector is reachable, and the clock
    advances a quarter of a second per reading. *)
Definition scenario_env : Env :=
  {| config := default_config "graphite.local";
     BME680_new := fun _ => Returns tt;
     W1ThermSensor_new := fun _ => Returns tt;
     configure := fun _ => Returns tt;
     get_sensor_data := fun _ => Returns (true, scenario_data);
     get_temperature := fun _ => Returns 18.0%float;
     sendto := fun _ => Returns tt;
     monotonic := fun n => (PrimFloat.of_uint63 (Uint63.of_Z (Z.of_nat n)) * 0.25)%float |}.

(** As [scenario_env], with the collector unreachable. *)
Definition unreachable_env : Env :=
  {| config := config scenario_env;
     BME680_new := BME680_new scenario_env;
     W1ThermSensor_new := W1ThermSensor_new scenario_env;
     configure := configure scenario_env;
     get_sensor_data := get_sensor_data scenario_env;
     get_temperature := get_temperature scenario_env;
     sendto := fun _ => Raises unreachable;
     monotonic := monotonic scenario_env |}.

(** As [scenario_env], with the indoor sensor found at the third attempt. *)
Definition retry_env : Env :=
  {| config := config scenario_env;
     BME680_new := fun n => if Nat.ltb n 2 then Raises not_found else Returns tt;
     W1ThermSensor_new := W1ThermSensor_new scenario_env;
     configure := configure scenario_env;
     get_sensor_data := get_sensor_data scenario_env;
     get_temperature := get_temperature scenario_env;
     sendto := sendto scenario_env;
     monotonic := monotonic scenario_env |}.

(** As [scenario_env], with the indoor read failing on the bus. *)
Definition faulty_read_env : Env :=
  {| config := config scenario_env;
     BME680_new := BME680_new scenario_env;
     W1ThermSensor_new := W1ThermSensor_new scenario_env;
     configure := configure scenario_env;
     get_sensor_data := fun _ => Raises remote_io;
     get_temperature := get_temperature scenario_env;
     sendto := sendto scenario_env;
     monotonic := monotonic scenario_env |}.

(** As [scenario_env], with no humidity in the driver's data. *)
Definition no_humidity_env : Env :=
  {| config := config scenario_env;
     BME680_new := BME680_new scenario_env;
     W1ThermSensor_new := W1ThermSensor_new scenario_env;
     configure := configure scenario_env;
     get_sensor_data := fun _ =>
       Returns (true, {| data_temperature := 21.5%float;
                         data_pressure := Some 1013.0%float;
                         data_humidity := None |});
     get_temperature := get_temperature scenario_env;
     sendto := sendto scenario_env;
     monotonic := monotonic scenario_env |}.

(** As [scenario_env], with no outdoor sensor on the bus. *)
Definition indoor_only_env : Env :=
  {| config := config scenario_env;
     BME680_new := BME680_new scenario_env;
     W1ThermSensor_new := fun _ =>
       Raises {| exc_type := Exception; exc_msg := "No sensor found" |};
     configure := configure scenario_env;
     get_sensor_data := get_sensor_data scenario_env;
     get_temperature := get_temperature scenario_env;
     sendto := sendto scenario_env;
     monotonic := monotonic scenario_env |}.

(** *** The scheduler loop and its resources *)

(** The loop at the end of [main]:
    [while True: with ensure_duration(interval): capture_sample(...)]. *)
Definition scheduler (fuel : nat) (interval : float)
    (sensor_indoor : option IndoorSensor)
    (sensor_outdoor : option OutdoorSensor) : M (option unit) :=
  while_true fuel
    (ensure_duration interval
       (capture_sample sensor_indoor sensor_outdoor) ;;
     ret (@Continue unit)).

(** Descriptors are handed out in increasing order: every open socket was
    numbered below the next one to be handed out. *)
Definition sockets_fresh (w : World) : Prop :=
  forall fd, In fd (open_sockets w) -> (fd < next_fd w)%nat.

(** A computation that leaves open exactly the sockets it found open, and
    hands out descriptors only upwards. *)
Definition keeps_sockets {A} (m : M A) : Prop :=
  forall env w,
    sockets_fresh w ->
    open_sockets (snd (m env w)) = open_sockets w /\
    (next_fd w <= next_fd (snd (m env w)))%nat.

(** The next [k] configuration calls of the indoor driver return. *)
Definition configure_returns (env : Env) (w : World) (k : nat) : Prop :=
  forall i, (i < k)%nat -> configure env (i + n_configure w) = Returns tt.

(** Every configuration call of the indoor driver returns. *)
Definition configure_conforms (env : Env) : Prop :=
  forall n, configure env n = Returns tt.

(** Every outdoor read returns a temperature. *)
Definition outdoor_conforms (env : Env) : Prop :=
  forall n, exists t, get_temperature env n = Returns t.

(** A timeout that every build of the socket library accepts: not negative,
    not NaN, and within the milliseconds a C [int] holds. *)
Definition timeout_accepted (timeout : float) : bool :=
  PrimFloat.leb 0%float timeout && PrimFloat.leb timeout 2147483.0%float.

(** The reads keep to the driver interface at every call. *)
Definition driver_conforms (env : Env) : Prop :=
  forall n, read_conforms (get_sensor_data env n).

(** An error none of the [except] clauses of the sensor code lists. *)
Definition bad_value : exception :=
  {| exc_type := ValueError; exc_msg := "invalid literal" |}.

(** The I2C bus itself is missing: a plain [OSError]. *)
Definition no_bus : exception :=
  {| exc_type := OSError; exc_msg := "No such file or directory" |}.

(** As [scenario_env], with the bus missing after one failed identification
    of the chip. *)
Definition no_bus_env : Env :=
  {| config := config scenario_env;
     BME680_new := fun n => if Nat.ltb n 1 then Raises not_found else Raises no_bus;
     W1ThermSensor_new := W1ThermSensor_new scenario_env;
     configure := configure scenario_env;
     get_sensor_data := get_sensor_data scenario_env;
     get_temperature := get_temperature scenario_env;
     sendto := sendto scenario_env;
     monotonic := monotonic scenario_env |}.

(** As [scenario_env], with the indoor read failing outside the driver
    interface. *)
Definition bad_read_env : Env :=
  {| config := config scenario_env;
     BME680_new := BME680_new scenario_env;
     W1ThermSensor_new := W1ThermSensor_new scenario_env;
     configure := configure scenario_env;
     get_sensor_data := fun _ => Raises bad_value;
     get_temperature := get_temperature scenario_env;
     sendto := sendto scenario_env;
     monotonic := monotonic scenario_env |}.

(** As [scenario_env], with the indoor sensor reporting no new data. *)
Definition no_data_env : Env :=
  {| config := config scenario_env;
     BME680_new := BME680_new scenario_env;
     W1ThermSensor_new := W1ThermSensor_new scenario_env;
     configure := configure scenario_env;
     get_sensor_data := fun _ => Returns (false, scenario_data);
     get_temperature := get_temperature scenario_env;
     sendto := sendto scenario_env;
     monotonic := monotonic scenario_env |}.

(** The outdoor sensor answers too late: an error of its driver. *)
Definition not_ready : exception :=
  {| exc_type := Exception;
     exc_msg := "Sensor is not yet ready to read temperature" |}.

(** As [scenario_env], with the bus of the indoor sensor dead: the read and
    every configuration call fail on it. *)
Definition dead_bus_env : Env :=
  {| config := config scenario_env;
     BME680_new := BME680_new scenario_env;
     W1ThermSensor_new := W1ThermSensor_new scenario_env;
     configure := fun _ => Raises remote_io;
     get_sensor_data := fun _ => Raises remote_io;
     get_temperature := get_temperature scenario_env;
     sendto := sendto scenario_env;
     monotonic := monotonic scenario_env |}.

(** As [scenario_env], with the outdoor read failing. *)
Definition outdoor_fault_env : Env :=
  {| config := config scenario_env;
     BME680_new := BME680_new scenario_env;
     W1ThermSensor_new := W1ThermSensor_new scenario_env;
     configure := configure scenario_env;
     get_sensor_data := get_sensor_data scenario_env;
     get_temperature := fun _ => Raises not_ready;
     sendto := sendto scenario_env;
     monotonic := monotonic scenario_env |}.

(** * Properties *)

(** Runs a straight-line piece of the program on a world given field by
    field, leaving list appends, payload texts and float operations as they
    are. *)
Ltac run_program :=
  cbv -[app metric_payload format_value float_repr String.append
        PrimFloat.sub PrimFloat.ltb PrimFloat.leb PrimFloat.eqb
        exc_matches io_fault recoverable remove_fd datagrams firstn
        config BME680_new W1ThermSensor_new configure get_sensor_data
        get_temperature sendto monotonic
        SENSORS_SAMPLE_INTERVAL SENSOR_INDOOR_I2C_ADDR GRAPHITE_HOST
        GRAPHITE_PORT GRAPHITE_TIMEOUT METRICS_PREFIX
        METRIC_TEMPERATURE_INDOOR METRIC_TEMPERATURE_OUTDOOR METRIC_PRESSURE
        METRIC_HUMIDITY];
  rewrite <- ?app_assoc; cbn [app].

(** Splits on every outcome a call to a collaborator can have, caught or
    not. *)
Ltac split_outcomes :=
  run_program;
  repeat (match goal with
          | H : get_sensor_data ?env ?n = _
            |- context [match get_sensor_data ?env ?n with _ => _ end] =>
              rewrite H
          | H : get_temperature ?env ?n = _
            |- context [match get_temperature ?env ?n with _ => _ end] =>
              rewrite H
          | H : exc_matches ?e ?l = _
            |- context [if exc_matches ?e ?l then _ else _] =>
              rewrite H
          | |- context [match get_sensor_data ?env ?n with _ => _ end] =>
              destruct (get_sensor_data env n) as [[[|] ?d]|?e]
          | |- context [match configure ?env ?n with _ => _ end] =>
              destruct (configure env n) as [[]|?e]
          | |- context [match get_temperature ?env ?n with _ => _ end] =>
              destruct (get_temperature env n) as [?t|?e]
          | |- context [match sendto ?env ?n with _ => _ end] =>
              destruct (sendto env n) as [[]|?e]
          | |- context [if exc_matches ?e ?l then _ else _] =>
              destruct (exc_matches e l)
          end; run_program).

(** Uses the assumption that the next configuration calls return. *)
Ltac configure_ok H :=
  let H0 := fresh "Hc" in
  let H1 := fresh "Hc" in
  let H2 := fresh "Hc" in
  let H3 := fresh "Hc" in
  pose proof (H 0%nat ltac:(lia)) as H0;
  pose proof (H 1%nat ltac:(lia)) as H1;
  pose proof (H 2%nat ltac:(lia)) as H2;
  pose proof (H 3%nat ltac:(lia)) as H3;
  cbn [Nat.add] in H0, H1, H2, H3;
  rewrite ?H0; run_program; rewrite ?H1; run_program;
  rewrite ?H2; run_program; rewrite ?H3; run_program;
  clear H0 H1 H2 H3.

(** ** [initalize_indoor_sensor] *)

Lemma initalize_indoor_sensor_run sensor level env w :
  configure_returns env w 4 ->
  initalize_indoor_sensor sensor level env w =
  (Ok tt,
   {| indoor := {| gas_status := Some DISABLE_GAS_MEAS;
                   humidity_oversample := Some level;
                   temperature_oversample := Some level;
                   pressure_oversample := Some level;
                   data := data (indoor w) |};
      n_open_indoor := n_open_indoor w;
      n_open_outdoor := n_open_outdoor w;
      n_configure := 4 + n_configure w;
      n_read_indoor := n_read_indoor w;
      n_read_outdoor := n_read_outdoor w;
      n_sendto := n_sendto w;
      n_clock := n_clock w;
      next_fd := next_fd w;
      open_sockets := open_sockets w;
      trace := trace w ++ initialize_events level |}).
Proof.
  intros Hcfg. destruct w. unfold configure_returns in Hcfg.
  cbn [n_configure Nat.add] in Hcfg. run_program.
  configure_ok Hcfg. reflexivity.
Qed.

(** A second run on a configured device leaves it as it is, whether it
    completes or fails on the way. *)
Lemma initalize_indoor_sensor_again sensor level env w :
  gas_status (indoor w) = Some DISABLE_GAS_MEAS ->
  humidity_oversample (indoor w) = Some level ->
  temperature_oversample (indoor w) = Some level ->
  pressure_oversample (indoor w) = Some level ->
  indoor (snd (initalize_indoor_sensor sensor level env w)) = indoor w.
Proof.
  destruct w as [[g h t p d] ? ? ? ? ? ? ? ? ? ?].
  cbn [indoor gas_status humidity_oversample temperature_oversample
       pressure_oversample].
  intros -> -> -> ->. split_outcomes; reflexivity.
Qed.

(** C8. For every oversampling level, every handle and every state of the
    device: when the configuration calls return, [initalize_indoor_sensor]
    returns normally and leaves gas measurement disabled and the humidity,
    temperature and pressure oversampling at the level, the data untouched;
    running it a second time with the same level leaves the device as the
    first run left it, and returns normally when its calls return too. *)
Theorem initalize_indoor_sensor_idempotent :
  forall (sensor : IndoorSensor) (level : Z) (env : Env) (w : World),
    configure_returns env w 4 ->
    let once := initalize_indoor_sensor sensor level env w in
    let twice := initalize_indoor_sensor sensor level env (snd once) in
    fst once = Ok tt /\
    indoor (snd once) =
      {| gas_status := Some DISABLE_GAS_MEAS;
         humidity_oversample := Some level;
         temperature_oversample := Some level;
         pressure_oversample := Some level;
         data := data (indoor w) |} /\
    indoor (snd twice) = indoor (snd once) /\
    (configure_returns env w 8 -> fst twice = Ok tt).
Proof.
  intros sensor level env w Hcfg once twice. subst twice once.
  rewrite (initalize_indoor_sensor_run sensor level env w Hcfg).
  cbn [fst snd]. split; [reflexivity|]. split; [reflexivity|]. split.
  - apply initalize_indoor_sensor_again; reflexivity.
  - intros Hcfg8. rewrite initalize_indoor_sensor_run; [reflexivity|].
    intros i Hi. cbn [n_configure].
    rewrite <- (Hcfg8 (i + 4)%nat ltac:(lia)). f_equal. lia.
Qed.

(** At [scenario_env] every configuration call returns. *)
Lemma initalize_indoor_sensor_idempotent_witness :
  let once := initalize_indoor_sensor (BME680 0x76) OS_8X scenario_env
                initial_world in
  let twice := initalize_indoor_sensor (BME680 0x76) OS_8X scenario_env
                 (snd once) in
  fst once = Ok tt /\
  fst twice = Ok tt /\
  indoor (snd twice) = indoor (snd once) /\
  humidity_oversample (indoor (snd once)) = Some OS_8X.
Proof.
  destruct (initalize_indoor_sensor_idempotent (BME680 0x76) OS_8X
              scenario_env initial_world (fun i _ => eq_refl))
    as (Hok & Hdev & Hsame & Hagain).
  cbv zeta. split; [exact Hok|]. split; [exact (Hagain (fun i _ => eq_refl))|].
  split; [exact Hsame|]. rewrite Hdev. reflexivity.
Defined.

(** ** [get_indoor_sample] *)

(** C3 (as amended). [get_indoor_sample] makes exactly one read.  If the
    read raises an I/O fault, the function then does what one run of
    [initalize_indoor_sensor] at the default oversampling followed by
    [return None] does: it returns [None] when the four configuration calls
    return, and an exception of a configuration call is raised to the
    caller.  If the read reports no new data it returns [None]; otherwise it
    returns a sample with the temperature, humidity and pressure of the
    driver's data.  An exception of the read that is not an I/O fault is
    raised to the caller. *)
Theorem get_indoor_sample_outcomes :
  forall (sensor : IndoorSensor) (env : Env) (w : World),
    let run := get_indoor_sample sensor env w in
    let read_done := count_read_indoor (emit EGetSensorData w) in
    n_read_indoor (snd run) = S (n_read_indoor w) /\
    match get_sensor_data env (n_read_indoor w) with
    | Raises e =>
        if io_fault e then
          run = bind (initalize_indoor_sensor sensor OS_8X)
                     (fun _ => ret None) env read_done /\
          (configure_returns env w 4 ->
           fst run = Ok None /\
           trace (snd run) =
             trace w ++ EGetSensorData :: initialize_events OS_8X) /\
          (forall e', configure env (n_configure w) = Raises e' ->
           fst run = Err e' /\
           trace (snd run) =
             trace w ++ [EGetSensorData; ESetGasStatus DISABLE_GAS_MEAS])
        else run = (Err e, read_done)
    | Returns (false, _) =>
        fst run = Ok None /\
        trace (snd run) = trace w ++ [EGetSensorData]
    | Returns (true, d) =>
        fst run = Ok (Some {| temperature := data_temperature d;
                              humidity := data_humidity d;
                              pressure := data_pressure d |}) /\
        trace (snd run) = trace w ++ [EGetSensorData]
    end.
Proof.
  intros sensor env w run read_done. subst run read_done. destruct w.
  unfold configure_returns, io_fault.
  cbn [n_read_indoor n_configure].
  split; [split_outcomes; reflexivity|].
  destruct (get_sensor_data env n_read_indoor0) as [[[|] d]|e] eqn:Hread.
  - run_program. rewrite Hread. run_program. split; reflexivity.
  - run_program. rewrite Hread. run_program. split; reflexivity.
  - destruct (exc_matches e [OSError]) eqn:Hio.
    + split; [|split].
      * run_program. rewrite Hread. run_program. rewrite Hio.
        split_outcomes; reflexivity.
      * intros Hcfg. run_program. rewrite Hread. run_program. rewrite Hio.
        run_program. configure_ok Hcfg. split; reflexivity.
      * intros e' He'. run_program. rewrite Hread. run_program. rewrite Hio.
        run_program. rewrite He'. run_program. split; reflexivity.
    + run_program. rewrite Hread. run_program. rewrite Hio. reflexivity.
Qed.

(** At [faulty_read_env] the read raises an I/O fault and the configuration
    calls return. *)
Lemma get_indoor_sample_outcomes_witness :
  let run := get_indoor_sample (BME680 0x76) faulty_read_env initial_world in
  n_read_indoor (snd run) = 1%nat /\
  fst run = Ok None /\
  trace (snd run) = EGetSensorData :: initialize_events OS_8X.
Proof.
  destruct (get_indoor_sample_outcomes (BME680 0x76) faulty_read_env
              initial_world) as (Hcount & _ & Hdone & _).
  split; [exact Hcount|]. exact (Hdone (fun i _ => eq_refl)).
Defined.

(** C3, as stated, fails: on a bus that is dead the read raises an I/O
    fault and so does the first configuration call of the handler, and that
    second fault is raised to the caller of [get_indoor_sample]. *)
Lemma get_indoor_sample_raises_on_dead_bus :
  get_sensor_data dead_bus_env (n_read_indoor initial_world) = Raises remote_io /\
  io_fault remote_io = true /\
  fst (get_indoor_sample (BME680 0x76) dead_bus_env initial_world) =
    Err remote_io /\
  ~ (exists v,
       fst (get_indoor_sample (BME680 0x76) dead_bus_env initial_world) = Ok v).
Proof.
  split; [reflexivity|]. split; [reflexivity|]. split; [reflexivity|].
  intros [v Hv]. discriminate Hv.
Qed.

(** ** [send_metric] *)

Lemma remove_fd_head fd l : remove_fd fd (fd :: l) = remove_fd fd l.
Proof. unfold remove_fd. cbn [filter]. rewrite Nat.eqb_refl. reflexivity. Qed.

Lemma remove_fd_not_in fd l : ~ In fd (remove_fd fd l).
Proof.
  unfold remove_fd. intros Hin. apply filter_In in Hin.
  destruct Hin as [_ Hneq]. rewrite Nat.eqb_refl in Hneq. discriminate.
Qed.

Lemma send_metric_run name v ty prefix timeout env w :
  send_metric name v ty prefix timeout env w =
  (match sendto env (n_sendto w) with
   | Returns _ => Ok tt
   | Raises e => if io_fault e then Ok tt else Err e
   end,
   {| indoor := indoor w;
      n_open_indoor := n_open_indoor w;
      n_open_outdoor := n_open_outdoor w;
      n_configure := n_configure w;
      n_read_indoor := n_read_indoor w;
      n_read_outdoor := n_read_outdoor w;
      n_sendto := S (n_sendto w);
      n_clock := n_clock w;
      next_fd := S (next_fd w);
      open_sockets := remove_fd (next_fd w) (open_sockets w);
      trace := trace w ++
               send_events (next_fd w) timeout
                 (metric_payload prefix name v ty)
                 (GRAPHITE_HOST (config env)) (GRAPHITE_PORT (config env)) |}).
Proof.
  destruct w. run_program. unfold io_fault.
  destruct (sendto env n_sendto0) as [[]|e]; [|destruct (exc_matches e [OSError])];
    run_program; rewrite remove_fd_head; reflexivity.
Qed.

(** A timeout of the socket is an [OSError] as much as an unreachable
    network is; an error of another kind is not. *)
Lemma io_fault_examples :
  io_fault unreachable = true /\
  io_fault {| exc_type := TimeoutError; exc_msg := "timed out" |} = true /\
  io_fault {| exc_type := ValueError; exc_msg := "" |} = false.
Proof. repeat split. Qed.

(** C5. Every [send_metric] opens one socket, hands one datagram to it and
    closes it, whatever the send does.  A send that goes through or fails
    with an [OSError] (unreachable network, timeout) makes the call return
    normally, so that whatever follows it in the cycle runs next; any other
    exception leaves the function, after the socket was closed. *)
Theorem send_metric_best_effort :
  forall (name : string) (v : option float) (ty prefix : string)
         (timeout : float) (env : Env) (w : World),
    let run := send_metric name v ty prefix timeout env w in
    trace (snd run) =
      trace w ++
      send_events (next_fd w) timeout (metric_payload prefix name v ty)
        (GRAPHITE_HOST (config env)) (GRAPHITE_PORT (config env)) /\
    ~ In (next_fd w) (open_sockets (snd run)) /\
    open_sockets (snd run) = remove_fd (next_fd w) (open_sockets w) /\
    n_sendto (snd run) = S (n_sendto w) /\
    match sendto env (n_sendto w) with
    | Returns _ => fst run = Ok tt
    | Raises e => fst run = if io_fault e then Ok tt else Err e
    end /\
    (send_conforms (sendto env (n_sendto w)) ->
     fst run = Ok tt /\
     forall (B : Type) (next : M B),
       bind (send_metric name v ty prefix timeout) (fun _ => next) env w =
       next env (snd run)).
Proof.
  intros name v ty prefix timeout env w run. subst run.
  unfold bind. rewrite send_metric_run. cbn [fst snd trace open_sockets n_sendto].
  split; [reflexivity|]. split; [apply remove_fd_not_in|].
  split; [reflexivity|]. split; [reflexivity|]. split.
  - destruct (sendto env (n_sendto w)) as [[]|e]; reflexivity.
  - intros Hsend.
    assert (Hok : match sendto env (n_sendto w) with
                  | Returns _ => Ok tt
                  | Raises e => if io_fault e then Ok tt else Err e
                  end = @Ok unit tt).
    { destruct (sendto env (n_sendto w)) as [[]|e]; [reflexivity|].
      unfold send_conforms in Hsend. rewrite Hsend. reflexivity. }
    rewrite Hok. split; reflexivity.
Qed.

(** With the collector unreachable, the send of a metric returns normally,
    its socket is closed, and the next send of the cycle is attempted. *)
Lemma send_metric_best_effort_witness :
  let run := send_metric "humidity" (Some 40.2%float) "g" "atmo" 1.0%float
               unreachable_env initial_world in
  fst run = Ok tt /\
  open_sockets (snd run) = [] /\
  datagrams
    (trace (snd (bind (send_metric "humidity" (Some 40.2%float) "g" "atmo"
                         1.0%float)
                      (fun _ => send_metric "pressure" (Some 1013.0%float) "g"
                                  "atmo" 1.0%float)
                      unreachable_env initial_world))) =
    ["atmo.humidity:40.2|g"; "atmo.pressure:1013.0|g"].
Proof.
  destruct (send_metric_best_effort "humidity" (Some 40.2%float) "g" "atmo"
              1.0%float unreachable_env initial_world)
    as (_ & _ & Hsock & _ & _ & Hnext).
  destruct (Hnext eq_refl) as [Hok Hrun].
  split; [exact Hok|]. split; [exact Hsock|].
  rewrite Hrun. vm_compute. reflexivity.
Defined.

(** ** [capture_sample] *)

Lemma datagrams_app t1 t2 : datagrams (t1 ++ t2) = datagrams t1 ++ datagrams t2.
Proof.
  induction t1 as [|e t1 IH]; [reflexivity|].
  destruct e; cbn [app datagrams]; rewrite IH; reflexivity.
Qed.

(** Splits on what the next send does, under the assumption on the network. *)
Ltac case_send Hnet n :=
  let H := fresh "Hsend" in
  pose proof (Hnet n) as H; unfold send_conforms, io_fault in H;
  destruct (sendto _ n) as [[]|?e]; [clear H | rewrite ?H; clear H];
  run_program; rewrite ?remove_fd_head.

(** A cycle is its indoor half followed by its outdoor half. *)
Lemma capture_sample_split i o env w :
  capture_sample i o env w =
  bind (capture_sample i None) (fun _ => capture_sample None o) env w.
Proof.
  unfold capture_sample, bind, ask, ret.
  destruct i as [sensor|]; [|reflexivity].
  destruct (get_indoor_sample sensor env w) as [[[s|]|e|] w1]; try reflexivity.
  destruct (send_metric_default (METRIC_HUMIDITY (config env)) (humidity s) env w1)
    as [[[]|e|] w2]; try reflexivity.
  destruct (send_metric_default (METRIC_PRESSURE (config env)) (pressure s) env w2)
    as [[[]|e|] w3]; try reflexivity.
  destruct (send_metric_default (METRIC_TEMPERATURE_INDOOR (config env))
              (Some (temperature s)) env w3) as [[[]|e|] w4]; reflexivity.
Qed.

(** The indoor half when the read yields a sample. *)
Lemma capture_sample_indoor_run sensor env w d :
  get_sensor_data env (n_read_indoor w) = Returns (true, d) ->
  network_conforms env ->
  capture_sample (Some sensor) None env w =
  (Ok tt,
   {| indoor := {| gas_status := gas_status (indoor w);
                   humidity_oversample := humidity_oversample (indoor w);
                   temperature_oversample := temperature_oversample (indoor w);
                   pressure_oversample := pressure_oversample (indoor w);
                   data := d |};
      n_open_indoor := n_open_indoor w;
      n_open_outdoor := n_open_outdoor w;
      n_configure := n_configure w;
      n_read_indoor := S (n_read_indoor w);
      n_read_outdoor := n_read_outdoor w;
      n_sendto := S (S (S (n_sendto w)));
      n_clock := n_clock w;
      next_fd := S (S (S (next_fd w)));
      open_sockets :=
        remove_fd (S (S (next_fd w)))
          (remove_fd (S (next_fd w))
             (remove_fd (next_fd w) (open_sockets w)));
      trace := trace w ++ EGetSensorData ::
        send_events (next_fd w) (GRAPHITE_TIMEOUT (config env))
          (metric_payload (METRICS_PREFIX (config env))
             (METRIC_HUMIDITY (config env)) (data_humidity d) "g")
          (GRAPHITE_HOST (config env)) (GRAPHITE_PORT (config env)) ++
        send_events (S (next_fd w)) (GRAPHITE_TIMEOUT (config env))
          (metric_payload (METRICS_PREFIX (config env))
             (METRIC_PRESSURE (config env)) (data_pressure d) "g")
          (GRAPHITE_HOST (config env)) (GRAPHITE_PORT (config env)) ++
        send_events (S (S (next_fd w))) (GRAPHITE_TIMEOUT (config env))
          (metric_payload (METRICS_PREFIX (config env))
             (METRIC_TEMPERATURE_INDOOR (config env))
             (Some (data_temperature d)) "g")
          (GRAPHITE_HOST (config env)) (GRAPHITE_PORT (config env)) |}).
Proof.
  intros Hread Hnet. destruct w. cbn [n_read_indoor] in Hread.
  run_program. rewrite Hread. run_program.
  case_send Hnet n_sendto0; case_send Hnet (S n_sendto0);
    case_send Hnet (S (S n_sendto0)); reflexivity.
Qed.

(** The outdoor half, by what the outdoor read does. *)
Lemma capture_sample_outdoor_run sensor env w :
  capture_sample None (Some sensor) env w =
  match get_temperature env (n_read_outdoor w) with
  | Returns t =>
      (match sendto env (n_sendto w) with
       | Returns _ => Ok tt
       | Raises e => if io_fault e then Ok tt else Err e
       end,
       {| indoor := indoor w;
          n_open_indoor := n_open_indoor w;
          n_open_outdoor := n_open_outdoor w;
          n_configure := n_configure w;
          n_read_indoor := n_read_indoor w;
          n_read_outdoor := S (n_read_outdoor w);
          n_sendto := S (n_sendto w);
          n_clock := n_clock w;
          next_fd := S (next_fd w);
          open_sockets := remove_fd (next_fd w) (open_sockets w);
          trace := trace w ++ EGetTemperature ::
            send_events (next_fd w) (GRAPHITE_TIMEOUT (config env))
              (metric_payload (METRICS_PREFIX (config env))
                 (METRIC_TEMPERATURE_OUTDOOR (config env)) (Some t) "g")
              (GRAPHITE_HOST (config env)) (GRAPHITE_PORT (config env)) |})
  | Raises e => (Err e, count_read_outdoor (emit EGetTemperature w))
  end.
Proof.
  destruct w. unfold io_fault. run_program.
  destruct (get_temperature env n_read_outdoor0) as [t|e];
    [|run_program; reflexivity].
  run_program.
  destruct (sendto env n_sendto0) as [[]|e];
    [|destruct (exc_matches e [OSError])];
    run_program; rewrite remove_fd_head; reflexivity.
Qed.

(** The indoor half makes no outdoor read, whatever happens in it. *)
Lemma capture_sample_indoor_n_read_outdoor i env w :
  n_read_outdoor (snd (capture_sample i None env w)) = n_read_outdoor w.
Proof.
  destruct w, i as [sensor|]; cbn [n_read_outdoor];
    split_outcomes; reflexivity.
Qed.

(** The indoor half returns normally when the read keeps to its interface,
    the configuration calls of a recovery return, and the network keeps to
    its interface. *)
Lemma capture_sample_indoor_ok i env w :
  read_conforms (get_sensor_data env (n_read_indoor w)) ->
  configure_returns env w 4 ->
  network_conforms env ->
  fst (capture_sample i None env w) = Ok tt.
Proof.
  intros Hread Hcfg Hnet. destruct i as [sensor|]; [|reflexivity].
  destruct w. cbn [n_read_indoor] in Hread.
  unfold configure_returns in Hcfg. cbn [n_configure] in Hcfg.
  unfold read_conforms, io_fault in Hread. run_program.
  destruct (get_sensor_data env n_read_indoor0) as [[[|] d]|e].
  - run_program.
    case_send Hnet n_sendto0; case_send Hnet (S n_sendto0);
      case_send Hnet (S (S n_sendto0)); reflexivity.
  - run_program. reflexivity.
  - rewrite Hread. run_program. configure_ok Hcfg. reflexivity.
Qed.

(** A full cycle with both handles present, a sample read and an outdoor
    temperature read. *)
Lemma capture_sample_both_run sensor outdoor env w d t :
  get_sensor_data env (n_read_indoor w) = Returns (true, d) ->
  get_temperature env (n_read_outdoor w) = Returns t ->
  network_conforms env ->
  let run := capture_sample (Some sensor) (Some outdoor) env w in
  fst run = Ok tt /\
  n_sendto (snd run) = S (S (S (S (n_sendto w)))) /\
  trace (snd run) =
    trace w ++ EGetSensorData ::
      send_events (next_fd w) (GRAPHITE_TIMEOUT (config env))
        (metric_payload (METRICS_PREFIX (config env))
           (METRIC_HUMIDITY (config env)) (data_humidity d) "g")
        (GRAPHITE_HOST (config env)) (GRAPHITE_PORT (config env)) ++
      send_events (S (next_fd w)) (GRAPHITE_TIMEOUT (config env))
        (metric_payload (METRICS_PREFIX (config env))
           (METRIC_PRESSURE (config env)) (data_pressure d) "g")
        (GRAPHITE_HOST (config env)) (GRAPHITE_PORT (config env)) ++
      send_events (S (S (next_fd w))) (GRAPHITE_TIMEOUT (config env))
        (metric_payload (METRICS_PREFIX (config env))
           (METRIC_TEMPERATURE_INDOOR (config env))
           (Some (data_temperature d)) "g")
        (GRAPHITE_HOST (config env)) (GRAPHITE_PORT (config env)) ++
      EGetTemperature ::
      send_events (S (S (S (next_fd w)))) (GRAPHITE_TIMEOUT (config env))
        (metric_payload (METRICS_PREFIX (config env))
           (METRIC_TEMPERATURE_OUTDOOR (config env)) (Some t) "g")
        (GRAPHITE_HOST (config env)) (GRAPHITE_PORT (config env)).
Proof.
  intros Hread Hout Hnet run. subst run.
  rewrite capture_sample_split. unfold bind.
  rewrite (capture_sample_indoor_run sensor env w d Hread Hnet).
  rewrite capture_sample_outdoor_run.
  cbn [n_read_outdoor n_sendto]. rewrite Hout.
  pose proof (Hnet (S (S (S (n_sendto w))))) as Hsend.
  unfold send_conforms in Hsend.
  cbn [fst snd trace n_sendto next_fd].
  split; [|split; [reflexivity|]].
  - destruct (sendto env (S (S (S (n_sendto w))))) as [[]|e]; [reflexivity|].
    rewrite Hsend. reflexivity.
  - rewrite <- app_assoc. cbn [app send_events]. reflexivity.
Qed.

(** A full cycle with both handles present, a sample read and the outdoor
    read failing: the three indoor sends, and the exception. *)
Lemma capture_sample_outdoor_fault_run sensor outdoor env w d e :
  get_sensor_data env (n_read_indoor w) = Returns (true, d) ->
  get_temperature env (n_read_outdoor w) = Raises e ->
  network_conforms env ->
  let run := capture_sample (Some sensor) (Some outdoor) env w in
  fst run = Err e /\
  datagrams (trace (snd run)) =
    datagrams (trace (snd (capture_sample (Some sensor) None env w))).
Proof.
  intros Hread Hout Hnet run. subst run.
  rewrite capture_sample_split. unfold bind.
  rewrite (capture_sample_indoor_run sensor env w d Hread Hnet).
  rewrite capture_sample_outdoor_run.
  cbn [n_read_outdoor]. rewrite Hout. cbn [fst snd].
  split; [reflexivity|].
  cbn [count_read_outdoor emit trace]. rewrite datagrams_app.
  cbn [datagrams]. apply app_nil_r.
Qed.

(** C2 (as amended). In every cycle in which the indoor handle is present
    and the read yields a sample, and the network keeps to its interface,
    the indoor sample accounts for exactly three datagrams: humidity,
    pressure and indoor temperature, under the configured names and prefix.
    None of them depends on the field being present: an absent humidity or
    pressure is sent as the text [None].  The outdoor handle, when present,
    adds its one datagram after them when its read returns, and ends the
    cycle with the exception of the read otherwise. *)
Theorem capture_sample_indoor_three_sends :
  forall (sensor : IndoorSensor) (outdoor_sensor : option OutdoorSensor)
         (env : Env) (w : World) (d : FieldData),
    get_sensor_data env (n_read_indoor w) = Returns (true, d) ->
    network_conforms env ->
    let run := capture_sample (Some sensor) outdoor_sensor env w in
    let outdoor_read := get_temperature env (n_read_outdoor w) in
    fst run =
      match outdoor_sensor, outdoor_read with
      | Some _, Raises e => Err e
      | _, _ => Ok tt
      end /\
    datagrams (trace (snd run)) =
      datagrams (trace w) ++
      [ metric_payload (METRICS_PREFIX (config env))
          (METRIC_HUMIDITY (config env)) (data_humidity d) "g";
        metric_payload (METRICS_PREFIX (config env))
          (METRIC_PRESSURE (config env)) (data_pressure d) "g";
        metric_payload (METRICS_PREFIX (config env))
          (METRIC_TEMPERATURE_INDOOR (config env))
          (Some (data_temperature d)) "g" ] ++
      match outdoor_sensor, outdoor_read with
      | Some _, Returns t =>
          [ metric_payload (METRICS_PREFIX (config env))
              (METRIC_TEMPERATURE_OUTDOOR (config env)) (Some t) "g" ]
      | _, _ => []
      end.
Proof.
  intros sensor outdoor_sensor env w d Hread Hnet run outdoor_read.
  subst run outdoor_read.
  assert (Hindoor :
    datagrams (trace (snd (capture_sample (Some sensor) None env w))) =
    datagrams (trace w) ++
    [ metric_payload (METRICS_PREFIX (config env))
        (METRIC_HUMIDITY (config env)) (data_humidity d) "g";
      metric_payload (METRICS_PREFIX (config env))
        (METRIC_PRESSURE (config env)) (data_pressure d) "g";
      metric_payload (METRICS_PREFIX (config env))
        (METRIC_TEMPERATURE_INDOOR (config env))
        (Some (data_temperature d)) "g" ]).
  { rewrite (capture_sample_indoor_run sensor env w d Hread Hnet).
    cbn [snd trace]. rewrite datagrams_app. reflexivity. }
  destruct outdoor_sensor as [outdoor|].
  - destruct (get_temperature env (n_read_outdoor w)) as [t|e] eqn:Hout.
    + destruct (capture_sample_both_run sensor outdoor env w d t Hread Hout Hnet)
        as (Hok & _ & Htrace).
      split; [exact Hok|]. rewrite Htrace, datagrams_app. reflexivity.
    + destruct (capture_sample_outdoor_fault_run sensor outdoor env w d e
                  Hread Hout Hnet) as (Herr & Hsent).
      split; [exact Herr|]. rewrite Hsent, Hindoor. reflexivity.
  - split.
    + rewrite (capture_sample_indoor_run sensor env w d Hread Hnet).
      reflexivity.
    + rewrite Hindoor. reflexivity.
Qed.

(** At [no_humidity_env] the sample has no humidity; three datagrams leave
    all the same. *)
Lemma capture_sample_indoor_three_sends_witness :
  let run := capture_sample (Some (BME680 0x76)) None no_humidity_env
               initial_world in
  fst run = Ok tt /\
  datagrams (trace (snd run)) =
    [ "atmo.humidity:None|g"; "atmo.pressure:1013.0|g";
      "atmo.temperature_indoor:21.5|g" ].
Proof.
  exact (capture_sample_indoor_three_sends (BME680 0x76) None no_humidity_env
           initial_world _ eq_refl (fun n => I)).
Defined.

(** C2, as stated, fails: with the humidity of the sample absent, the
    humidity send is not skipped.  Three sends are made, the first of them
    the humidity metric with the text [None] for its value. *)
Lemma capture_sample_sends_absent_field :
  let run := capture_sample (Some (BME680 0x76)) None no_humidity_env
               initial_world in
  fst (get_indoor_sample (BME680 0x76) no_humidity_env initial_world) =
    Ok (Some {| temperature := 21.5%float;
                humidity := None;
                pressure := Some 1013.0%float |}) /\
  datagrams (trace (snd run)) =
    [ "atmo.humidity:None|g"; "atmo.pressure:1013.0|g";
      "atmo.temperature_indoor:21.5|g" ] /\
  ~ (humidity {| temperature := 21.5%float;
                 humidity := None;
                 pressure := Some 1013.0%float |} = None ->
     ~ In (metric_payload "atmo" "humidity" None "g")
          (datagrams (trace (snd run)))).
Proof.
  split; [vm_compute; reflexivity|].
  split; [vm_compute; reflexivity|].
  intros Hskip. apply (Hskip eq_refl). vm_compute. left. reflexivity.
Qed.



(** C7 (as amended). A cycle with the outdoor handle present is the cycle
    without it followed by the outdoor half, and the outdoor half is run
    only when the indoor half returned: an exception of the indoor half
    leaves the cycle before the outdoor sensor is read.  When the indoor
    half returned, the outdoor sensor is read exactly once; if that read
    returns, exactly one datagram follows, the outdoor temperature, and if
    it raises, the exception leaves the cycle with no further datagram.  The
    indoor half returns when there is no indoor handle, when a sample was
    read, when there was no new data, and after an I/O fault that the
    configuration calls recover from, the sends failing at most with an
    [OSError].  With both handles absent a cycle does nothing at all. *)
Theorem capture_sample_outdoor_one_send :
  forall (indoor_sensor : option IndoorSensor) (outdoor : OutdoorSensor)
         (env : Env) (w : World),
    let without := capture_sample indoor_sensor None env w in
    let run := capture_sample indoor_sensor (Some outdoor) env w in
    let payload t :=
      metric_payload (METRICS_PREFIX (config env))
        (METRIC_TEMPERATURE_OUTDOOR (config env)) (Some t) "g" in
    (forall e, fst without = Err e -> run = (Err e, snd without)) /\
    (fst without = Ok tt ->
     n_read_outdoor (snd run) = S (n_read_outdoor w) /\
     match get_temperature env (n_read_outdoor w) with
     | Returns t =>
         trace (snd run) =
           trace (snd without) ++ EGetTemperature ::
             send_events (next_fd (snd without))
               (GRAPHITE_TIMEOUT (config env)) (payload t)
               (GRAPHITE_HOST (config env)) (GRAPHITE_PORT (config env)) /\
         datagrams (trace (snd run)) =
           datagrams (trace (snd without)) ++ [payload t] /\
         n_sendto (snd run) = S (n_sendto (snd without)) /\
         (send_conforms (sendto env (n_sendto (snd without))) ->
          fst run = Ok tt)
     | Raises e =>
         fst run = Err e /\
         datagrams (trace (snd run)) = datagrams (trace (snd without)) /\
         n_sendto (snd run) = n_sendto (snd without)
     end) /\
    (read_conforms (get_sensor_data env (n_read_indoor w)) ->
     configure_returns env w 4 ->
     network_conforms env ->
     fst without = Ok tt) /\
    capture_sample None None env w = (Ok tt, w).
Proof.
  intros indoor_sensor outdoor env w without run payload.
  pose proof (capture_sample_indoor_n_read_outdoor indoor_sensor env w)
    as Hcount. fold without in Hcount.
  assert (Hrun : run = bind (capture_sample indoor_sensor None)
                         (fun _ => capture_sample None (Some outdoor)) env w)
    by apply capture_sample_split.
  unfold bind in Hrun. fold without in Hrun.
  split; [|split; [|split; [|reflexivity]]].
  - intros e He. rewrite Hrun. destruct without as [r w1].
    cbn [fst snd] in *. subst r. reflexivity.
  - intros Hok. rewrite Hrun. destruct without as [r w1].
    cbn [fst snd] in *. subst r.
    rewrite capture_sample_outdoor_run, Hcount.
    destruct (get_temperature env (n_read_outdoor w)) as [t|e];
      cbn [fst snd trace n_sendto n_read_outdoor].
    + split; [reflexivity|]. split; [reflexivity|]. split; [|split].
      * rewrite datagrams_app. cbn [datagrams send_events]. reflexivity.
      * reflexivity.
      * intros Hsend. unfold send_conforms in Hsend.
        destruct (sendto env (n_sendto w1)) as [[]|e]; [reflexivity|].
        rewrite Hsend. reflexivity.
    + replace (n_read_outdoor (count_read_outdoor (emit EGetTemperature w1)))
        with (S (n_read_outdoor w1)) by (destruct w1; reflexivity).
      replace (n_sendto (count_read_outdoor (emit EGetTemperature w1)))
        with (n_sendto w1) by (destruct w1; reflexivity).
      replace (trace (count_read_outdoor (emit EGetTemperature w1)))
        with (trace w1 ++ [EGetTemperature]) by (destruct w1; reflexivity).
      rewrite Hcount, datagrams_app. cbn [datagrams]. rewrite app_nil_r.
      repeat split.
  - intros Hread Hcfg Hnet.
    exact (capture_sample_indoor_ok indoor_sensor env w Hread Hcfg Hnet).
Qed.

(** At [faulty_read_env] the indoor read fails and the device is
    initialised again; the outdoor temperature is sent all the same, and it
    is the only datagram of the cycle. *)
Lemma capture_sample_outdoor_one_send_witness :
  let run := capture_sample (Some (BME680 0x76)) (Some W1ThermSensor)
               faulty_read_env initial_world in
  fst run = Ok tt /\
  datagrams (trace (snd run)) = ["atmo.temperature_outdoor:18.0|g"] /\
  n_read_outdoor (snd run) = 1%nat.
Proof.
  destruct (capture_sample_outdoor_one_send (Some (BME680 0x76)) W1ThermSensor
              faulty_read_env initial_world)
    as (_ & Hout & Hindoor & _).
  specialize (Hindoor eq_refl (fun i _ => eq_refl) (fun n => I)).
  destruct (Hout Hindoor) as (Hread & _ & Hsent & _ & Hok).
  split; [exact (Hok I)|]. split; [|exact Hread].
  rewrite Hsent. vm_compute. reflexivity.
Defined.

(** C7, as stated, fails.  With the outdoor handle present and the outdoor
    read raising, the cycle makes the three indoor sends and none for the
    outdoor temperature; and with the bus of the indoor sensor dead, the
    cycle ends in the handler of the indoor read, the outdoor sensor not
    read and nothing sent. *)
Lemma capture_sample_outdoor_send_missing :
  (let run := capture_sample (Some (BME680 0x76)) (Some W1ThermSensor)
                outdoor_fault_env initial_world in
   fst run = Err not_ready /\
   datagrams (trace (snd run)) =
     [ "atmo.humidity:40.2|g"; "atmo.pressure:1013.0|g";
       "atmo.temperature_indoor:21.5|g" ]) /\
  (let run := capture_sample (Some (BME680 0x76)) (Some W1ThermSensor)
                dead_bus_env initial_world in
   fst run = Err remote_io /\
   datagrams (trace (snd run)) = [] /\
   n_read_outdoor (snd run) = 0%nat).
Proof. repeat split; vm_compute; reflexivity. Qed.

(** C6. Every [send_metric] hands exactly one datagram to the socket, with
    the text [<prefix>.<metric_name>:<value>|<type>], and the calls of
    [capture_sample] leave the type at its default [g].  In particular, with
    the prefix [atmo] and the default metric names, an indoor read of
    temperature 21.5, humidity 40.2 and pressure 1013.0 and an outdoor
    temperature of 18.0, one cycle produces the four datagrams
    [atmo.humidity:40.2|g], [atmo.pressure:1013.0|g],
    [atmo.temperature_indoor:21.5|g] and [atmo.temperature_outdoor:18.0|g],
    and no other. *)
Theorem capture_sample_wire_format :
  (forall (name : string) (v : option float) (ty prefix : string)
          (timeout : float) (env : Env) (w : World),
     datagrams (trace (snd (send_metric name v ty prefix timeout env w))) =
       datagrams (trace w) ++
       [ (prefix ++ "." ++ name ++ ":" ++ format_value v ++ "|" ++ ty)%string ])
  /\
  (forall (sensor : IndoorSensor) (outdoor : OutdoorSensor) (env : Env)
          (w : World),
     METRICS_PREFIX (config env) = "atmo" ->
     METRIC_HUMIDITY (config env) = "humidity" ->
     METRIC_PRESSURE (config env) = "pressure" ->
     METRIC_TEMPERATURE_INDOOR (config env) = "temperature_indoor" ->
     METRIC_TEMPERATURE_OUTDOOR (config env) = "temperature_outdoor" ->
     get_sensor_data env (n_read_indoor w) =
       Returns (true, {| data_temperature := 21.5%float;
                         data_pressure := Some 1013.0%float;
                         data_humidity := Some 40.2%float |}) ->
     get_temperature env (n_read_outdoor w) = Returns 18.0%float ->
     network_conforms env ->
     let run := capture_sample (Some sensor) (Some outdoor) env w in
     fst run = Ok tt /\
     datagrams (trace (snd run)) =
       datagrams (trace w) ++
       [ "atmo.humidity:40.2|g"; "atmo.pressure:1013.0|g";
         "atmo.temperature_indoor:21.5|g"; "atmo.temperature_outdoor:18.0|g" ]).
Proof.
  split.
  - intros name v ty prefix timeout env w.
    rewrite send_metric_run. cbn [snd trace].
    rewrite datagrams_app. reflexivity.
  - intros sensor outdoor env w Hprefix Hhum Hpres Htin Htout Hread Htemp Hnet
      run. subst run.
    destruct (capture_sample_both_run sensor outdoor env w _ _ Hread Htemp Hnet)
      as (Hok & _ & Htrace).
    split; [exact Hok|].
    rewrite Htrace, Hprefix, Hhum, Hpres, Htin, Htout, datagrams_app.
    f_equal.
Qed.

(** The end-to-end scenario at [scenario_env], from the initial world. *)
Lemma capture_sample_wire_format_witness :
  let run := capture_sample (Some (BME680 0x76)) (Some W1ThermSensor)
               scenario_env initial_world in
  fst run = Ok tt /\
  datagrams (trace (snd run)) =
    [ "atmo.humidity:40.2|g"; "atmo.pressure:1013.0|g";
      "atmo.temperature_indoor:21.5|g"; "atmo.temperature_outdoor:18.0|g" ].
Proof.
  exact (proj2 capture_sample_wire_format (BME680 0x76) W1ThermSensor
           scenario_env initial_world eq_refl eq_refl eq_refl eq_refl eq_refl
           eq_refl eq_refl (fun n => I)).
Defined.

(** ** [get_indoor_sensor] *)

(** What one pass of the loop does, by the outcome of the constructor. *)
Lemma get_indoor_sensor_pass_run error_interval env w :
  let addr := SENSOR_INDOOR_I2C_ADDR (config env) in
  let opened := count_open_indoor (emit (EOpenIndoor addr) w) in
  get_indoor_sensor_pass error_interval env w =
  match BME680_new env (n_open_indoor w) with
  | Returns _ => (Ok (Return (Some (BME680 addr))), opened)
  | Raises e =>
      if recoverable e
      then (Ok Continue,
            emit (ESleep error_interval)
              (emit (ELogError ("Sensor not found. Retrying in "
                                ++ float_repr error_interval
                                ++ " second(s)...")%string) opened))
      else (Err e, opened)
  end.
Proof.
  intros addr opened. subst opened addr. destruct w. run_program.
  unfold recoverable.
  destruct (BME680_new env n_open_indoor0) as [[]|e];
    [|destruct (exc_matches e [RuntimeError; PermissionError])];
    run_program; reflexivity.
Qed.

(** The loop is never left by [break], and what it returns is a handle. *)
Lemma get_indoor_sensor_loop_exit fuel error_interval env w v w' :
  while_true fuel (get_indoor_sensor_pass error_interval) env w = (Ok v, w') ->
  exists h, v = Some (Some h).
Proof.
  revert w. induction fuel as [|fuel IH]; intros w Hrun.
  - discriminate Hrun.
  - cbn [while_true] in Hrun. unfold bind in Hrun.
    rewrite get_indoor_sensor_pass_run in Hrun.
    destruct (BME680_new env (n_open_indoor w)) as [[]|e].
    + inversion Hrun. eexists. reflexivity.
    + destruct (recoverable e).
      * apply IH in Hrun. exact Hrun.
      * discriminate Hrun.
Qed.

(** After [k] recoverable failures and a success, the loop has logged and
    slept [k] times and returns the handle. *)
Lemma get_indoor_sensor_loop_retries error_interval env k :
  forall fuel w,
    (k < fuel)%nat ->
    fails_recoverably env w k ->
    BME680_new env (n_open_indoor w + k) = Returns tt ->
    let addr := SENSOR_INDOOR_I2C_ADDR (config env) in
    let run := while_true fuel (get_indoor_sensor_pass error_interval) env w in
    fst run = Ok (Some (Some (BME680 addr))) /\
    trace (snd run) =
      trace w ++ retry_events addr error_interval k ++ [EOpenIndoor addr] /\
    n_open_indoor (snd run) = S (n_open_indoor w + k).
Proof.
  induction k as [|k IH]; intros fuel w Hfuel Hfail Hopen addr run;
    subst run; (destruct fuel as [|fuel]; [lia|]);
    cbn [while_true]; unfold bind; rewrite get_indoor_sensor_pass_run.
  - rewrite Nat.add_0_r in Hopen. rewrite Hopen. destruct w.
    cbn. rewrite Nat.add_0_r. repeat split.
  - destruct (Hfail 0%nat ltac:(lia)) as (e & He & Hrec).
    rewrite Nat.add_0_r in He. rewrite He, Hrec.
    set (w1 := emit _ (emit _ (count_open_indoor _))).
    assert (Hn : n_open_indoor w1 = S (n_open_indoor w)) by (destruct w; reflexivity).
    assert (Ht : trace w1 = trace w ++
                   [ EOpenIndoor addr;
                     ELogError ("Sensor not found. Retrying in "
                                ++ float_repr error_interval
                                ++ " second(s)...")%string;
                     ESleep error_interval ]).
    { destruct w. subst w1. cbn. rewrite <- !app_assoc. reflexivity. }
    destruct (IH fuel w1) as (Hres & Htrace & Hcount).
    + lia.
    + intros i Hi. rewrite Hn.
      destruct (Hfail (S i) ltac:(lia)) as (e' & He' & Hrec').
      exists e'. split; [|exact Hrec'].
      rewrite <- He'. f_equal. lia.
    + rewrite Hn. rewrite <- Hopen. f_equal. lia.
    + split; [exact Hres|]. split.
      * rewrite Htrace, Ht. cbn [retry_events]. fold addr.
        rewrite <- !app_assoc. reflexivity.
      * rewrite Hcount, Hn. lia.
Qed.

(** As long as every attempt fails recoverably, the loop keeps going. *)
Lemma get_indoor_sensor_loop_running error_interval env fuel :
  forall w,
    fails_recoverably env w fuel ->
    fst (while_true fuel (get_indoor_sensor_pass error_interval) env w) =
      Running.
Proof.
  induction fuel as [|fuel IH]; intros w Hfail; [reflexivity|].
  cbn [while_true]. unfold bind. rewrite get_indoor_sensor_pass_run.
  destruct (Hfail 0%nat ltac:(lia)) as (e & He & Hrec).
  rewrite Nat.add_0_r in He. rewrite He, Hrec.
  apply IH. intros i Hi.
  destruct (Hfail (S i) ltac:(lia)) as (e' & He' & Hrec').
  exists e'. split; [|exact Hrec'].
  rewrite <- He'. f_equal. destruct w. cbn. lia.
Qed.

(** C10. [get_indoor_sensor] never yields [None]: whenever it returns, it
    returns a handle, because its loop is never left by [break] and so the
    [return None] after it is not reached.  It does return: after [k] open
    failures of the kinds it retries on and one success it returns the
    handle, having logged and slept for the retry interval [k] times; and as
    long as the failures go on it is still looping. *)
Theorem get_indoor_sensor_never_absent :
  forall (error_interval : float) (env : Env),
    (forall fuel w v w',
       get_indoor_sensor fuel error_interval env w = (Ok v, w') ->
       exists h, v = Some h) /\
    (forall fuel w w',
       while_true fuel (get_indoor_sensor_pass error_interval) env w
       <> (Ok None, w')) /\
    (forall k fuel w,
       (k < fuel)%nat ->
       fails_recoverably env w k ->
       BME680_new env (n_open_indoor w + k) = Returns tt ->
       let addr := SENSOR_INDOOR_I2C_ADDR (config env) in
       let run := get_indoor_sensor fuel error_interval env w in
       fst run = Ok (Some (BME680 addr)) /\
       trace (snd run) =
         trace w ++ retry_events addr error_interval k ++ [EOpenIndoor addr]) /\
    (forall fuel w,
       fails_recoverably env w fuel ->
       fst (get_indoor_sensor fuel error_interval env w) = Running).
Proof.
  intros error_interval env.
  split; [|split; [|split]].
  - intros fuel w v w' Hrun. unfold get_indoor_sensor, bind in Hrun.
    destruct (while_true fuel (get_indoor_sensor_pass error_interval) env w)
      as [[left_by|e|] w1] eqn:Hloop; try discriminate Hrun.
    destruct (get_indoor_sensor_loop_exit _ _ _ _ _ _ Hloop) as [h Hh].
    subst left_by. inversion Hrun. exists h. reflexivity.
  - intros fuel w w' Hloop.
    destruct (get_indoor_sensor_loop_exit _ _ _ _ _ _ Hloop) as [h Hh].
    discriminate Hh.
  - intros k fuel w Hfuel Hfail Hopen addr run. subst run.
    destruct (get_indoor_sensor_loop_retries error_interval env k fuel w
                Hfuel Hfail Hopen) as (Hres & Htrace & _).
    unfold get_indoor_sensor, bind.
    destruct (while_true fuel (get_indoor_sensor_pass error_interval) env w)
      as [r w1]. cbn [fst snd] in Hres, Htrace. subst r.
    split; [reflexivity | exact Htrace].
  - intros fuel w Hfail.
    pose proof (get_indoor_sensor_loop_running error_interval env fuel w Hfail)
      as Hloop.
    unfold get_indoor_sensor, bind.
    destruct (while_true fuel (get_indoor_sensor_pass error_interval) env w)
      as [r w1]. cbn [fst] in Hloop. subst r. reflexivity.
Qed.

Lemma retry_env_fails_twice : fails_recoverably retry_env initial_world 2.
Proof.
  intros i Hi. exists not_found.
  destruct i as [|[|i]]; [split; reflexivity | split; reflexivity | lia].
Defined.

(** At [retry_env] the sensor is found at the third attempt: the function
    has slept twice for the retry interval and returns the handle. *)
Lemma get_indoor_sensor_never_absent_witness :
  let run := get_indoor_sensor 3 5.0%float retry_env initial_world in
  fst run = Ok (Some (BME680 0x76)) /\
  trace (snd run) =
    [ EOpenIndoor 0x76;
      ELogError "Sensor not found. Retrying in 5.0 second(s)...";
      ESleep 5.0%float;
      EOpenIndoor 0x76;
      ELogError "Sensor not found. Retrying in 5.0 second(s)...";
      ESleep 5.0%float;
      EOpenIndoor 0x76 ].
Proof.
  destruct (get_indoor_sensor_never_absent 5.0%float retry_env)
    as (_ & _ & Hretry & _).
  exact (Hretry 2%nat 3%nat initial_world ltac:(lia) retry_env_fails_twice
           eq_refl).
Defined.

(** ** [ensure_duration] *)

(** Comparison of binary64 values: swapping the operands mirrors the
    result. *)
Lemma SFcompare_swap x y :
  SFcompare y x =
  match SFcompare x y with
  | Some c => Some (CompOpp c)
  | None => None
  end.
Proof.
  destruct x as [sx|sx| |sx mx ex], y as [sy|sy| |sy my ey];
    try reflexivity;
    try (destruct sx; reflexivity); try (destruct sy; reflexivity);
    try (destruct sx, sy; reflexivity).
  unfold SFcompare.
  rewrite (Z.compare_antisym ey ex).
  change (Pos.compare_cont Eq my mx) with (Pos.compare my mx).
  change (Pos.compare_cont Eq mx my) with (Pos.compare mx my).
  rewrite (Pos.compare_antisym my mx).
  destruct sx, sy; try reflexivity;
    destruct (Z.compare ey ex); cbn [CompOpp]; try reflexivity;
    destruct (Pos.compare my mx); reflexivity.
Qed.

(** [t <= d] excludes [d < t]. *)
Lemma float_leb_not_ltb (t d : float) :
  PrimFloat.leb t d = true -> PrimFloat.ltb d t = false.
Proof.
  rewrite leb_spec, ltb_spec. unfold SFleb, SFltb.
  rewrite (SFcompare_swap (Prim2SF t) (Prim2SF d)).
  destruct (SFcompare (Prim2SF t) (Prim2SF d)) as [[| |]|];
    cbn [CompOpp]; intros H; try reflexivity; discriminate H.
Qed.

(** C4. One cycle of the scheduler, for every target interval [T] and
    every body that returns normally: with [D] the difference of the clock
    readings taken after and before the body, the cycle sleeps exactly once,
    for [T - D], when [D < T], and does not sleep at all when [T <= D]. *)
Theorem ensure_duration_pads_cycle :
  forall (T : float) (body : M unit) (env : Env) (w w1 : World),
    body env (count_clock w) = (Ok tt, w1) ->
    let D := PrimFloat.sub (monotonic env (n_clock w1))
                           (monotonic env (n_clock w)) in
    (PrimFloat.ltb D T = true ->
     ensure_duration T body env w =
       (Ok tt, emit (ESleep (PrimFloat.sub T D)) (count_clock w1))) /\
    (PrimFloat.leb T D = true ->
     ensure_duration T body env w = (Ok tt, count_clock w1)).
Proof.
  intros T body env w w1 Hbody D.
  assert (Hrun : ensure_duration T body env w =
                 if PrimFloat.ltb D T
                 then (Ok tt, emit (ESleep (PrimFloat.sub T D)) (count_clock w1))
                 else (Ok tt, count_clock w1)).
  { unfold ensure_duration, bind, time_monotonic.
    rewrite Hbody. fold D. destruct (PrimFloat.ltb D T); reflexivity. }
  split; intros Hcmp; rewrite Hrun.
  - rewrite Hcmp. reflexivity.
  - rewrite (float_leb_not_ltb T D Hcmp). reflexivity.
Qed.

(** At [scenario_env] a cycle takes a quarter of a second by the clock;
    with a target of one second it is padded by three quarters, and with a
    target of a quarter of a second it is not padded. *)
Lemma ensure_duration_pads_cycle_witness :
  let cycle := capture_sample (Some (BME680 0x76)) (Some W1ThermSensor) in
  let w1 := snd (cycle scenario_env (count_clock initial_world)) in
  let D := PrimFloat.sub (monotonic scenario_env (n_clock w1))
                         (monotonic scenario_env (n_clock initial_world)) in
  D = 0.25%float /\
  ensure_duration 1.0%float cycle scenario_env initial_world =
    (Ok tt, emit (ESleep (PrimFloat.sub 1.0%float D)) (count_clock w1)) /\
  ensure_duration 0.25%float cycle scenario_env initial_world =
    (Ok tt, count_clock w1).
Proof.
  intros cycle w1 D.
  assert (Hbody : cycle scenario_env (count_clock initial_world) = (Ok tt, w1))
    by (vm_compute; reflexivity).
  destruct (ensure_duration_pads_cycle 1.0%float cycle scenario_env
              initial_world w1 Hbody) as [Hlt _].
  destruct (ensure_duration_pads_cycle 0.25%float cycle scenario_env
              initial_world w1 Hbody) as [_ Hge].
  split; [vm_compute; reflexivity|].
  split; [apply Hlt | apply Hge]; vm_compute; reflexivity.
Defined.

(** ** [main] *)

(** C1 does not hold of the code.  With no outdoor sensor on the bus and
    the indoor sensor found at the first attempt, so that one of the two
    handles is present, [main] logs "Unable to acquire any sensor, exiting"
    and returns: the indoor sensor is not initialised and no cycle is run.
    The test [not (sensor_outdoor and sendor_indoor)] is true as soon as the
    outdoor handle is absent. *)
Theorem main_aborts_with_indoor_sensor_only :
  forall (fuel : nat),
    main (S fuel) 5.0%float indoor_only_env initial_world =
    (Ok tt,
     {| indoor := fresh_device;
        n_open_indoor := 1;
        n_open_outdoor := 1;
        n_configure := 0;
        n_read_indoor := 0;
        n_read_outdoor := 0;
        n_sendto := 0;
        n_clock := 0;
        next_fd := 3;
        open_sockets := [];
        trace := [ EOpenOutdoor; EOpenIndoor 0x76;
                   ELogError "Unable to acquire any sensor, exiting" ] |}).
Proof. intros fuel. reflexivity. Qed.

(** With both sensors present the test reads the name [sendor_indoor], which
    nothing binds: [main] ends with a [NameError], the indoor sensor not
    initialised and no cycle run. *)
Lemma main_raises_name_error_with_both_sensors :
  forall (fuel : nat),
    main (S fuel) 5.0%float scenario_env initial_world =
    (Err {| exc_type := NameError;
            exc_msg := "name 'sendor_indoor' is not defined" |},
     {| indoor := fresh_device;
        n_open_indoor := 1;
        n_open_outdoor := 1;
        n_configure := 0;
        n_read_indoor := 0;
        n_read_outdoor := 0;
        n_sendto := 0;
        n_clock := 0;
        next_fd := 3;
        open_sockets := [];
        trace := [ EOpenOutdoor; EOpenIndoor 0x76 ] |}).
Proof. intros fuel. reflexivity. Qed.

Lemma get_outdoor_sensor_footprint env w :
  sampling_footprint (snd (get_outdoor_sensor env w)) = sampling_footprint w.
Proof.
  destruct w. run_program.
  destruct (W1ThermSensor_new env n_open_outdoor0) as [[]|e];
    [|destruct (exc_matches e [Exception])]; reflexivity.
Qed.

Lemma get_indoor_sensor_footprint fuel error_interval env :
  forall w,
    sampling_footprint (snd (get_indoor_sensor fuel error_interval env w)) =
    sampling_footprint w.
Proof.
  assert (Hloop : forall w,
    sampling_footprint
      (snd (while_true fuel (get_indoor_sensor_pass error_interval) env w)) =
    sampling_footprint w).
  { induction fuel as [|fuel IH]; intros w; [reflexivity|].
    cbn [while_true]. unfold bind. rewrite get_indoor_sensor_pass_run.
    destruct (BME680_new env (n_open_indoor w)) as [[]|e];
      [destruct w; reflexivity|].
    destruct (recoverable e); [|destruct w; reflexivity].
    rewrite IH. destruct w. reflexivity. }
  intros w. unfold get_indoor_sensor, bind.
  specialize (Hloop w).
  destruct (while_true fuel (get_indoor_sensor_pass error_interval) env w)
    as [[[v|]|e|] w1]; exact Hloop.
Qed.

(** X9. In no environment and for no amount of fuel does [main] reach its
    scheduler loop: it makes no sensor read, no send and no clock reading,
    and leaves the indoor device as it found it. *)
Lemma main_never_samples fuel interval env w :
  sampling_footprint (snd (main fuel interval env w)) = sampling_footprint w.
Proof.
  unfold main, bind, ask.
  pose proof (get_outdoor_sensor_footprint env w) as Hout.
  destruct (get_outdoor_sensor env w) as [[sensor_outdoor|e|] w1];
    cbn [snd] in Hout |- *; try exact Hout.
  pose proof (get_indoor_sensor_footprint fuel
                (SENSORS_SAMPLE_INTERVAL (config env)) env w1) as Hin.
  destruct (get_indoor_sensor fuel (SENSORS_SAMPLE_INTERVAL (config env)) env w1)
    as [[sensor_indoor|e|] w2];
    cbn [snd] in Hin |- *; try (rewrite Hin; exact Hout).
  rewrite <- Hout, <- Hin.
  destruct sensor_outdoor as [outdoor|]; destruct w2; reflexivity.
Qed.


(** * Further properties of the code *)

(** ** [get_outdoor_sensor] *)

(** Every class but [BaseException] and [KeyboardInterrupt] derives from
    [Exception]. *)
Lemma derives_from_Exception c :
  c <> BaseException -> c <> KeyboardInterrupt ->
  issubclass c Exception = true.
Proof. destruct c; intros Hb Hk; try reflexivity; congruence. Qed.

Lemma get_outdoor_sensor_run env w :
  get_outdoor_sensor env w =
  (match W1ThermSensor_new env (n_open_outdoor w) with
   | Returns _ => Ok (Some W1ThermSensor)
   | Raises e => if exc_matches e [Exception] then Ok None else Err e
   end,
   count_open_outdoor (emit EOpenOutdoor w)).
Proof.
  destruct w. run_program.
  destruct (W1ThermSensor_new env n_open_outdoor0) as [[]|e];
    [|destruct (exc_matches e [Exception])]; reflexivity.
Qed.

(** X1. [get_outdoor_sensor] tries the constructor exactly once and leaves
    nothing but that attempt in the world: no log line, no pause, no retry.
    It returns the handle when the constructor returns, and [None] on every
    exception derived from [Exception]; only an exception outside
    [Exception] leaves the function. *)
Theorem get_outdoor_sensor_single_attempt :
  forall (env : Env) (w : World),
    let run := get_outdoor_sensor env w in
    snd run = count_open_outdoor (emit EOpenOutdoor w) /\
    trace (snd run) = trace w ++ [EOpenOutdoor] /\
    match W1ThermSensor_new env (n_open_outdoor w) with
    | Returns _ => fst run = Ok (Some W1ThermSensor)
    | Raises e =>
        (exc_type e <> BaseException -> exc_type e <> KeyboardInterrupt ->
         fst run = Ok None) /\
        (exc_type e = BaseException \/ exc_type e = KeyboardInterrupt ->
         fst run = Err e)
    end.
Proof.
  intros env w run. subst run. rewrite get_outdoor_sensor_run.
  cbn [fst snd]. split; [reflexivity|]. split; [destruct w; reflexivity|].
  destruct (W1ThermSensor_new env (n_open_outdoor w)) as [[]|e];
    [reflexivity|].
  assert (Hm : exc_matches e [Exception] = issubclass (exc_type e) Exception)
    by (unfold exc_matches; cbn [existsb]; apply orb_false_r).
  rewrite Hm. split.
  - intros Hb Hk. rewrite (derives_from_Exception _ Hb Hk). reflexivity.
  - intros [Hc|Hc]; rewrite Hc; reflexivity.
Qed.

(** At [indoor_only_env] the constructor fails: [None], and one attempt. *)
Lemma get_outdoor_sensor_single_attempt_witness :
  let run := get_outdoor_sensor indoor_only_env initial_world in
  fst run = Ok None /\ trace (snd run) = [EOpenOutdoor].
Proof.
  destruct (get_outdoor_sensor_single_attempt indoor_only_env initial_world)
    as (_ & Htrace & Hnone & _).
  split; [apply Hnone; discriminate | exact Htrace].
Defined.

(** ** [get_indoor_sensor]: errors it does not retry on *)

(** Of the errors of opening a device, the loop retries on a missing chip and
    on a refused permission; a plain [OSError] is not among them. *)
Lemma recoverable_examples :
  recoverable not_found = true /\
  recoverable {| exc_type := PermissionError; exc_msg := "" |} = true /\
  recoverable no_bus = false /\
  recoverable bad_value = false.
Proof. repeat split. Qed.

(** One failed attempt moves the failures that remain one step closer. *)
Lemma fails_recoverably_next env w w1 k :
  n_open_indoor w1 = S (n_open_indoor w) ->
  fails_recoverably env w (S k) ->
  fails_recoverably env w1 k.
Proof.
  intros Hn Hfail i Hi. rewrite Hn.
  destruct (Hfail (S i) ltac:(lia)) as (e & He & Hrec).
  exists e. split; [|exact Hrec].
  rewrite <- He. f_equal. lia.
Qed.

Lemma get_indoor_sensor_loop_stops error_interval env k :
  forall fuel w e,
    (k < fuel)%nat ->
    fails_recoverably env w k ->
    BME680_new env (n_open_indoor w + k) = Raises e ->
    recoverable e = false ->
    let addr := SENSOR_INDOOR_I2C_ADDR (config env) in
    let run := while_true fuel (get_indoor_sensor_pass error_interval) env w in
    fst run = Err e /\
    trace (snd run) =
      trace w ++ retry_events addr error_interval k ++ [EOpenIndoor addr].
Proof.
  induction k as [|k IH]; intros fuel w e Hfuel Hfail Hopen Hrec addr run;
    subst run; (destruct fuel as [|fuel]; [lia|]);
    cbn [while_true]; unfold bind; rewrite get_indoor_sensor_pass_run.
  - rewrite Nat.add_0_r in Hopen. rewrite Hopen, Hrec. destruct w.
    split; reflexivity.
  - destruct (Hfail 0%nat ltac:(lia)) as (e0 & He0 & Hrec0).
    rewrite Nat.add_0_r in He0. rewrite He0, Hrec0.
    set (w1 := emit _ (emit _ (count_open_indoor _))).
    assert (Hn : n_open_indoor w1 = S (n_open_indoor w))
      by (destruct w; reflexivity).
    assert (Ht : trace w1 = trace w ++ retry_events addr error_interval 1).
    { destruct w. subst w1. cbn. rewrite <- !app_assoc. reflexivity. }
    destruct (IH fuel w1 e) as (Hres & Htrace).
    + lia.
    + exact (fails_recoverably_next env w w1 k Hn Hfail).
    + rewrite Hn. rewrite <- Hopen. f_equal. lia.
    + exact Hrec.
    + split; [exact Hres|].
      rewrite Htrace, Ht. cbn [retry_events]. fold addr.
      rewrite <- !app_assoc. reflexivity.
Qed.

(** X2. [get_indoor_sensor] retries only on [RuntimeError] and
    [PermissionError].  The first open failure of any other kind leaves the
    function as it is, at once: after the [k] retried failures before it
    there is the failed attempt and nothing more, no log line and no
    pause. *)
Theorem get_indoor_sensor_unrecoverable :
  forall (error_interval : float) (env : Env) (k fuel : nat) (w : World)
         (e : exception),
    (k < fuel)%nat ->
    fails_recoverably env w k ->
    BME680_new env (n_open_indoor w + k) = Raises e ->
    recoverable e = false ->
    let addr := SENSOR_INDOOR_I2C_ADDR (config env) in
    let run := get_indoor_sensor fuel error_interval env w in
    fst run = Err e /\
    trace (snd run) =
      trace w ++ retry_events addr error_interval k ++ [EOpenIndoor addr].
Proof.
  intros error_interval env k fuel w e Hfuel Hfail Hopen Hrec addr run.
  subst run.
  destruct (get_indoor_sensor_loop_stops error_interval env k fuel w e
              Hfuel Hfail Hopen Hrec) as (Hres & Htrace).
  unfold get_indoor_sensor, bind.
  destruct (while_true fuel (get_indoor_sensor_pass error_interval) env w)
    as [r w1]. cbn [fst snd] in Hres, Htrace |- *. subst r.
  split; [reflexivity | exact Htrace].
Qed.

Lemma no_bus_env_fails_once : fails_recoverably no_bus_env initial_world 1.
Proof.
  intros i Hi. exists not_found.
  destruct i as [|i]; [split; reflexivity | lia].
Defined.

(** At [no_bus_env] the chip is not identified once, and then the bus is
    gone: one retry, and the [OSError] of the second attempt comes out. *)
Lemma get_indoor_sensor_unrecoverable_witness :
  let run := get_indoor_sensor 5 5.0%float no_bus_env initial_world in
  fst run = Err no_bus /\
  trace (snd run) =
    [ EOpenIndoor 0x76;
      ELogError "Sensor not found. Retrying in 5.0 second(s)...";
      ESleep 5.0%float;
      EOpenIndoor 0x76 ].
Proof.
  exact (get_indoor_sensor_unrecoverable 5.0%float no_bus_env 1 5
           initial_world no_bus ltac:(lia) no_bus_env_fails_once
           eq_refl eq_refl).
Defined.

(** ** [get_indoor_sample] and [capture_sample]: reads without a sample *)

(** X3. [get_indoor_sample] handles [OSError] and nothing else.  A read
    that raises any other exception is not recovered from: the exception
    leaves [get_indoor_sample] and then [capture_sample], the device is not
    initialised again, no error line is logged, nothing is sent, and the
    outdoor sensor, when there is one, is not read in that cycle. *)
Theorem capture_sample_indoor_error_propagates :
  forall (sensor : IndoorSensor) (outdoor_sensor : option OutdoorSensor)
         (env : Env) (w : World) (e : exception),
    get_sensor_data env (n_read_indoor w) = Raises e ->
    io_fault e = false ->
    get_indoor_sample sensor env w =
      (Err e, count_read_indoor (emit EGetSensorData w)) /\
    capture_sample (Some sensor) outdoor_sensor env w =
      (Err e, count_read_indoor (emit EGetSensorData w)).
Proof.
  intros sensor outdoor_sensor env w e Hread Hio.
  assert (Hsample : get_indoor_sample sensor env w =
                    (Err e, count_read_indoor (emit EGetSensorData w))).
  { destruct w. cbn [n_read_indoor] in Hread. unfold io_fault in Hio.
    run_program. rewrite Hread. run_program. rewrite Hio. reflexivity. }
  split; [exact Hsample|].
  unfold capture_sample, bind, ask. rewrite Hsample. reflexivity.
Qed.

(** At [bad_read_env] the read raises a [ValueError]; the cycle ends with
    it after the read alone. *)
Lemma capture_sample_indoor_error_propagates_witness :
  capture_sample (Some (BME680 0x76)) (Some W1ThermSensor) bad_read_env
    initial_world =
  (Err bad_value, count_read_indoor (emit EGetSensorData initial_world)).
Proof.
  exact (proj2 (capture_sample_indoor_error_propagates (BME680 0x76)
                  (Some W1ThermSensor) bad_read_env initial_world bad_value
                  eq_refl eq_refl)).
Defined.

(** X4. When the indoor read gives no sample, the indoor half of the cycle
    sends nothing.  With no new data it returns normally and logs "Unable to
    read data from the indoor sensor" exactly once, as its last act.  After
    an I/O fault it does the same once the device is initialised again, the
    line following the four configuration calls; and when one of those calls
    raises, its exception leaves the cycle and the line is not logged. *)
Theorem capture_sample_no_sample_logged :
  forall (sensor : IndoorSensor) (env : Env) (w : World),
    read_conforms (get_sensor_data env (n_read_indoor w)) ->
    (forall d, get_sensor_data env (n_read_indoor w) <> Returns (true, d)) ->
    let run := capture_sample (Some sensor) None env w in
    let line := ELogError "Unable to read data from the indoor sensor" in
    n_sendto (snd run) = n_sendto w /\
    datagrams (trace (snd run)) = datagrams (trace w) /\
    match get_sensor_data env (n_read_indoor w) with
    | Returns _ =>
        fst run = Ok tt /\
        trace (snd run) = trace w ++ [EGetSensorData; line]
    | Raises _ =>
        let reinit :=
          initalize_indoor_sensor sensor OS_8X env
            (count_read_indoor (emit EGetSensorData w)) in
        match fst reinit with
        | Ok _ =>
            fst run = Ok tt /\
            trace (snd run) = trace (snd reinit) ++ [line]
        | Err e => run = (Err e, snd reinit)
        | Running => False
        end /\
        (configure_returns env w 4 ->
         fst run = Ok tt /\
         trace (snd run) =
           trace w ++ [EGetSensorData] ++ initialize_events OS_8X ++ [line])
    end.
Proof.
  intros sensor env w Hread Hnone run line. subst run line.
  destruct w. cbn [n_read_indoor n_sendto trace] in *.
  unfold read_conforms, io_fault in Hread. unfold configure_returns.
  cbn [n_configure].
  destruct (get_sensor_data env n_read_indoor0) as [[[|] d]|e] eqn:Hdata.
  - exfalso. exact (Hnone d eq_refl).
  - split_outcomes. repeat split.
    rewrite datagrams_app. cbn [datagrams]. apply app_nil_r.
  - split; [|split; [|split]].
    + split_outcomes; reflexivity.
    + split_outcomes; rewrite datagrams_app; cbn [datagrams];
        apply app_nil_r.
    + split_outcomes; first [reflexivity | split; reflexivity].
    + intros Hcfg. run_program. rewrite Hdata. run_program. rewrite Hread.
      run_program. configure_ok Hcfg. split; reflexivity.
Qed.

(** At [no_data_env] the sensor has no new data: one read, one line. *)
Lemma capture_sample_no_sample_logged_witness :
  let run := capture_sample (Some (BME680 0x76)) None no_data_env
               initial_world in
  fst run = Ok tt /\
  trace (snd run) =
    [ EGetSensorData;
      ELogError "Unable to read data from the indoor sensor" ].
Proof.
  destruct (capture_sample_no_sample_logged (BME680 0x76) no_data_env
              initial_world I ltac:(discriminate))
    as (_ & _ & Hok & Htrace).
  split; [exact Hok | exact Htrace].
Defined.

(** ** [capture_sample]: what a cycle costs, in every environment *)

(** X5. Whatever the sensors and the network do, exceptions included, one
    cycle reads the indoor sensor exactly once when its handle is present
    and never otherwise, reads the outdoor sensor at most once and only when
    its handle is present, and attempts at most three sends for the indoor
    sample and one for the outdoor temperature: never more than four. *)
Theorem capture_sample_cost :
  forall (indoor_sensor : option IndoorSensor)
         (outdoor_sensor : option OutdoorSensor) (env : Env) (w : World),
    let w' := snd (capture_sample indoor_sensor outdoor_sensor env w) in
    let i := match indoor_sensor with Some _ => 1%nat | None => 0%nat end in
    let o := match outdoor_sensor with Some _ => 1%nat | None => 0%nat end in
    n_read_indoor w' = (i + n_read_indoor w)%nat /\
    (n_read_outdoor w' <= o + n_read_outdoor w)%nat /\
    (n_sendto w' <= 3 * i + o + n_sendto w)%nat.
Proof.
  intros indoor_sensor outdoor_sensor env w w' i o. subst w' i o.
  destruct w, indoor_sensor as [sensor|], outdoor_sensor as [outdoor|];
    cbn [n_read_indoor n_read_outdoor n_sendto Nat.add Nat.mul];
    split_outcomes; repeat split; lia.
Qed.


(** ** Sockets: nothing is left open *)

Lemma remove_fd_absent fd l :
  (forall x, In x l -> x <> fd) -> remove_fd fd l = l.
Proof.
  intros Hne. unfold remove_fd. induction l as [|x l IH]; [reflexivity|].
  cbn [filter].
  destruct (Nat.eqb_spec x fd) as [Heq|Hneq].
  - exfalso. exact (Hne x (or_introl eq_refl) Heq).
  - cbn [negb]. f_equal. apply IH. intros y Hy. apply Hne. right. exact Hy.
Qed.

Lemma keeps_sockets_fresh {A} (m : M A) env w :
  keeps_sockets m -> sockets_fresh w -> sockets_fresh (snd (m env w)).
Proof.
  intros Hm Hw. destruct (Hm env w Hw) as [Hopen Hnext].
  intros fd Hin. rewrite Hopen in Hin. specialize (Hw fd Hin). lia.
Qed.

Lemma keeps_sockets_ret {A} (a : A) : keeps_sockets (ret a).
Proof. intros env w _. split; [reflexivity | apply Nat.le_refl]. Qed.

Lemma keeps_sockets_bind {A B} (m : M A) (k : A -> M B) :
  keeps_sockets m -> (forall a, keeps_sockets (k a)) ->
  keeps_sockets (bind m k).
Proof.
  intros Hm Hk env w Hw.
  pose proof (keeps_sockets_fresh m env w Hm Hw) as Hw1.
  destruct (Hm env w Hw) as [Hopen Hnext].
  unfold bind. destruct (m env w) as [[a|e|] w1]; cbn [snd] in *;
    try (split; [exact Hopen | exact Hnext]).
  destruct (Hk a env w1 Hw1) as [Hopen2 Hnext2].
  split; [rewrite Hopen2; exact Hopen | lia].
Qed.

(** A step that does not touch the sockets. *)
Lemma keeps_sockets_untouched {A} (m : M A) :
  (forall env w, open_sockets (snd (m env w)) = open_sockets w /\
                 next_fd (snd (m env w)) = next_fd w) ->
  keeps_sockets m.
Proof.
  intros Hm env w _. destruct (Hm env w) as [Hopen Hnext].
  split; [exact Hopen | rewrite Hnext; apply Nat.le_refl].
Qed.

Lemma keeps_sockets_send_metric name v ty prefix timeout :
  keeps_sockets (send_metric name v ty prefix timeout).
Proof.
  intros env w Hw. rewrite send_metric_run. cbn [snd open_sockets next_fd].
  split; [|lia].
  apply remove_fd_absent. intros x Hx. specialize (Hw x Hx). lia.
Qed.

Lemma keeps_sockets_get_indoor_sample sensor :
  keeps_sockets (get_indoor_sample sensor).
Proof.
  apply keeps_sockets_untouched. intros env w. destruct w.
  split_outcomes; split; reflexivity.
Qed.

Lemma keeps_sockets_ask : keeps_sockets ask.
Proof. apply keeps_sockets_untouched. intros env w. split; reflexivity. Qed.

Lemma keeps_sockets_send_metric_default name v :
  keeps_sockets (send_metric_default name v).
Proof.
  unfold send_metric_default.
  apply keeps_sockets_bind; [apply keeps_sockets_ask|].
  intros env. apply keeps_sockets_send_metric.
Qed.

Lemma keeps_sockets_capture_sample indoor_sensor outdoor_sensor :
  keeps_sockets (capture_sample indoor_sensor outdoor_sensor).
Proof.
  unfold capture_sample.
  apply keeps_sockets_bind; [apply keeps_sockets_ask|].
  intros env. apply keeps_sockets_bind.
  - destruct indoor_sensor as [sensor|]; [|apply keeps_sockets_ret].
    apply keeps_sockets_bind; [apply keeps_sockets_get_indoor_sample|].
    intros [indoor_sample|].
    + apply keeps_sockets_bind; [apply keeps_sockets_send_metric_default|].
      intros _.
      apply keeps_sockets_bind; [apply keeps_sockets_send_metric_default|].
      intros _. apply keeps_sockets_send_metric_default.
    + apply keeps_sockets_untouched. intros env0 w. destruct w.
      split; reflexivity.
  - intros _. destruct outdoor_sensor as [sensor|]; [|apply keeps_sockets_ret].
    apply keeps_sockets_bind.
    + apply keeps_sockets_untouched. intros env0 w. destruct w.
      split_outcomes; split; reflexivity.
    + intros outdoor_sample. apply keeps_sockets_send_metric_default.
Qed.

Lemma keeps_sockets_ensure_duration expected_duration body :
  keeps_sockets body -> keeps_sockets (ensure_duration expected_duration body).
Proof.
  intros Hbody. unfold ensure_duration.
  assert (Hclock : keeps_sockets time_monotonic).
  { apply keeps_sockets_untouched. intros env w. destruct w.
    split; reflexivity. }
  apply keeps_sockets_bind; [exact Hclock|]. intros time_start.
  apply keeps_sockets_bind; [exact Hbody|]. intros _.
  apply keeps_sockets_bind; [exact Hclock|]. intros time_end.
  destruct (PrimFloat.ltb _ _); [|apply keeps_sockets_ret].
  apply keeps_sockets_untouched. intros env w. destruct w. split; reflexivity.
Qed.

Lemma keeps_sockets_while_true {A} fuel (body : M (loop_ctl A)) :
  keeps_sockets body -> keeps_sockets (while_true fuel body).
Proof.
  intros Hbody. induction fuel as [|fuel IH].
  - intros env w _. split; [reflexivity | apply Nat.le_refl].
  - cbn [while_true]. apply keeps_sockets_bind; [exact Hbody|].
    intros [| |v]; [exact IH | apply keeps_sockets_ret | apply keeps_sockets_ret].
Qed.

(** X6. No socket is left open.  For a timeout the socket library accepts,
    and starting from a world in which the open descriptors are below the
    next one to be handed out, a cycle ends with exactly the sockets open
    that were open before it, whatever the sensors and the sends do and
    whether it returns or raises; and so does any number of cycles of the
    scheduler loop, whether it is still running or has ended with an
    exception. *)
Theorem sockets_never_leak :
  forall (indoor_sensor : option IndoorSensor)
         (outdoor_sensor : option OutdoorSensor) (env : Env) (w : World),
    timeout_accepted (GRAPHITE_TIMEOUT (config env)) = true ->
    sockets_fresh w ->
    (open_sockets (snd (capture_sample indoor_sensor outdoor_sensor env w)) =
       open_sockets w /\
     sockets_fresh (snd (capture_sample indoor_sensor outdoor_sensor env w)))
    /\
    (forall (fuel : nat) (interval : float),
       open_sockets
         (snd (scheduler fuel interval indoor_sensor outdoor_sensor env w)) =
       open_sockets w).
Proof.
  intros indoor_sensor outdoor_sensor env w _ Hw.
  pose proof (keeps_sockets_capture_sample indoor_sensor outdoor_sensor)
    as Hcycle.
  split; [split|].
  - exact (proj1 (Hcycle env w Hw)).
  - exact (keeps_sockets_fresh _ env w Hcycle Hw).
  - intros fuel interval. unfold scheduler.
    refine (proj1 (keeps_sockets_while_true fuel _ _ env w Hw)).
    apply keeps_sockets_bind.
    + apply keeps_sockets_ensure_duration. exact Hcycle.
    + intros _. apply keeps_sockets_ret.
Qed.

Lemma initial_world_sockets_fresh : sockets_fresh initial_world.
Proof. intros fd Hin. destruct Hin. Defined.

(** With the collector unreachable, three cycles on: no socket is open. *)
Lemma sockets_never_leak_witness :
  open_sockets
    (snd (scheduler 3 1.0%float (Some (BME680 0x76)) (Some W1ThermSensor)
            unreachable_env initial_world)) = [].
Proof.
  exact (proj2 (sockets_never_leak (Some (BME680 0x76)) (Some W1ThermSensor)
                  unreachable_env initial_world eq_refl
                  initial_world_sockets_fresh)
           3%nat 1.0%float).
Defined.


(** ** The scheduler loop *)

(** A cycle does not read the clock. *)
Lemma capture_sample_n_clock indoor_sensor outdoor_sensor env w :
  n_clock (snd (capture_sample indoor_sensor outdoor_sensor env w)) = n_clock w.
Proof.
  destruct w, indoor_sensor as [sensor|], outdoor_sensor as [outdoor|];
    cbn [n_clock]; split_outcomes; reflexivity.
Qed.

(** A cycle reads the indoor sensor once when it has its handle. *)
Lemma capture_sample_n_read_indoor indoor_sensor outdoor_sensor env w :
  n_read_indoor (snd (capture_sample indoor_sensor outdoor_sensor env w)) =
    (match indoor_sensor with Some _ => 1 | None => 0 end
     + n_read_indoor w)%nat.
Proof.
  destruct w, indoor_sensor as [sensor|], outdoor_sensor as [outdoor|];
    cbn [n_read_indoor Nat.add]; split_outcomes; reflexivity.
Qed.

(** With drivers and network within their interfaces a cycle returns. *)
Lemma capture_sample_ok indoor_sensor outdoor_sensor env w :
  read_conforms (get_sensor_data env (n_read_indoor w)) ->
  configure_conforms env ->
  outdoor_conforms env ->
  network_conforms env ->
  fst (capture_sample indoor_sensor outdoor_sensor env w) = Ok tt /\
  n_read_outdoor (snd (capture_sample indoor_sensor outdoor_sensor env w)) =
    (match outdoor_sensor with Some _ => 1 | None => 0 end
     + n_read_outdoor w)%nat.
Proof.
  intros Hread Hcfg Hout Hnet.
  pose proof (capture_sample_indoor_ok indoor_sensor env w Hread
                (fun i _ => Hcfg _) Hnet) as Hok.
  pose proof (capture_sample_indoor_n_read_outdoor indoor_sensor env w)
    as Hcount.
  destruct outdoor_sensor as [outdoor|]; [|split; assumption].
  rewrite capture_sample_split. unfold bind.
  destruct (capture_sample indoor_sensor None env w) as [r w1].
  cbn [fst snd] in Hok, Hcount. subst r.
  rewrite capture_sample_outdoor_run.
  destruct (Hout (n_read_outdoor w1)) as [t Ht]. rewrite Ht.
  pose proof (Hnet (n_sendto w1)) as Hsend. unfold send_conforms in Hsend.
  cbn [fst snd n_read_outdoor]. rewrite Hcount. split; [|reflexivity].
  destruct (sendto env (n_sendto w1)) as [[]|e]; [reflexivity|].
  rewrite Hsend. reflexivity.
Qed.

(** One padded cycle, with drivers and network within their interfaces. *)
Lemma scheduler_cycle_ok interval indoor_sensor outdoor_sensor env w :
  read_conforms (get_sensor_data env (n_read_indoor w)) ->
  configure_conforms env ->
  outdoor_conforms env ->
  network_conforms env ->
  let run := ensure_duration interval
               (capture_sample indoor_sensor outdoor_sensor) env w in
  fst run = Ok tt /\
  n_clock (snd run) = S (S (n_clock w)) /\
  n_read_indoor (snd run) =
    (match indoor_sensor with Some _ => 1 | None => 0 end
     + n_read_indoor w)%nat /\
  n_read_outdoor (snd run) =
    (match outdoor_sensor with Some _ => 1 | None => 0 end
     + n_read_outdoor w)%nat.
Proof.
  intros Hread Hcfg Hout Hnet run. subst run.
  assert (Hread1 : read_conforms
            (get_sensor_data env (n_read_indoor (count_clock w))))
    by (destruct w; exact Hread).
  destruct (capture_sample_ok indoor_sensor outdoor_sensor env (count_clock w)
              Hread1 Hcfg Hout Hnet) as [Hok Hcount].
  pose proof (capture_sample_n_clock indoor_sensor outdoor_sensor env
                (count_clock w)) as Hclock.
  pose proof (capture_sample_n_read_indoor indoor_sensor outdoor_sensor env
                (count_clock w)) as Hin.
  unfold ensure_duration, bind, time_monotonic, time_sleep, event, modify, ret.
  destruct (capture_sample indoor_sensor outdoor_sensor env (count_clock w))
    as [r w1]. cbn [fst snd] in *. subst r.
  destruct (PrimFloat.ltb _ _); destruct w, w1; cbn in *;
    repeat split; congruence.
Qed.

Lemma scheduler_never_returns_loop fuel interval indoor_sensor outdoor_sensor env :
  forall w r,
    fst (scheduler fuel interval indoor_sensor outdoor_sensor env w) <> Ok r.
Proof.
  unfold scheduler. induction fuel as [|fuel IH]; intros w r; [discriminate|].
  cbn [while_true]. unfold bind at 1 2.
  destruct (ensure_duration interval
              (capture_sample indoor_sensor outdoor_sensor) env w)
    as [[[]|e|] w1]; cbn [ret fst]; try discriminate.
  apply IH.
Qed.

Lemma scheduler_running_loop fuel interval indoor_sensor outdoor_sensor env :
  driver_conforms env ->
  configure_conforms env ->
  outdoor_conforms env ->
  network_conforms env ->
  forall w,
    let run := scheduler fuel interval indoor_sensor outdoor_sensor env w in
    fst run = Running /\
    n_clock (snd run) = (2 * fuel + n_clock w)%nat /\
    n_read_indoor (snd run) =
      (match indoor_sensor with Some _ => fuel | None => 0 end
       + n_read_indoor w)%nat /\
    n_read_outdoor (snd run) =
      (match outdoor_sensor with Some _ => fuel | None => 0 end
       + n_read_outdoor w)%nat.
Proof.
  intros Hdrv Hcfg Hosr Hnet. unfold scheduler.
  set (body := bind (ensure_duration interval
                       (capture_sample indoor_sensor outdoor_sensor))
                    (fun _ => ret (@Continue unit))).
  induction fuel as [|fuel IH]; intros w; cbv zeta.
  - cbn [while_true fst snd]. destruct indoor_sensor, outdoor_sensor;
      repeat split.
  - destruct (scheduler_cycle_ok interval indoor_sensor outdoor_sensor env w
                (Hdrv _) Hcfg Hosr Hnet) as (Hok & Hclock & Hin & Hout).
    assert (Hstep : while_true (S fuel) body env w =
                    while_true fuel body env
                      (snd (ensure_duration interval
                              (capture_sample indoor_sensor outdoor_sensor)
                              env w))).
    { cbn [while_true]. subst body. unfold bind at 1 2.
      destruct (ensure_duration interval
                  (capture_sample indoor_sensor outdoor_sensor) env w)
        as [r w1]. cbn [fst snd] in Hok |- *. subst r. reflexivity. }
    rewrite Hstep.
    destruct (IH (snd (ensure_duration interval
                         (capture_sample indoor_sensor outdoor_sensor)
                         env w))) as (Hrun & Hc & Hi & Ho).
    split; [exact Hrun|].
    rewrite Hc, Hi, Ho, Hclock, Hin, Hout.
    destruct indoor_sensor, outdoor_sensor; repeat split; lia.
Qed.

(** X7. The scheduler loop has no way out but an exception: in no
    environment and for no number of cycles does it return.  When no call
    fails in a way the cycle does not handle (the indoor read raises at most
    an I/O fault, the configuration calls and the outdoor read return, the
    sends fail at most with an [OSError]) no cycle raises, so that the loop
    goes on for ever; after [n] cycles it has read the clock [2 n] times and
    each sensor it has a handle for [n] times. *)
Theorem scheduler_runs_for_ever :
  forall (interval : float) (indoor_sensor : option IndoorSensor)
         (outdoor_sensor : option OutdoorSensor) (env : Env),
    (forall (fuel : nat) (w : World) (r : option unit),
       fst (scheduler fuel interval indoor_sensor outdoor_sensor env w)
       <> Ok r) /\
    (driver_conforms env ->
     configure_conforms env ->
     outdoor_conforms env ->
     network_conforms env ->
     forall (n : nat) (w : World),
       let run := scheduler n interval indoor_sensor outdoor_sensor env w in
       fst run = Running /\
       n_clock (snd run) = (2 * n + n_clock w)%nat /\
       n_read_indoor (snd run) =
         (match indoor_sensor with Some _ => n | None => 0 end
          + n_read_indoor w)%nat /\
       n_read_outdoor (snd run) =
         (match outdoor_sensor with Some _ => n | None => 0 end
          + n_read_outdoor w)%nat).
Proof.
  intros interval indoor_sensor outdoor_sensor env. split.
  - intros fuel w r. apply scheduler_never_returns_loop.
  - intros Hdrv Hcfg Hout Hnet n w. apply scheduler_running_loop; assumption.
Qed.

(** At [faulty_read_env], where every indoor read fails on the bus and the
    device is initialised again each time, the loop is still running after
    ten cycles. *)
Lemma scheduler_runs_for_ever_witness :
  let run := scheduler 10 1.0%float (Some (BME680 0x76)) (Some W1ThermSensor)
               faulty_read_env initial_world in
  fst run = Running /\
  n_clock (snd run) = 20%nat /\
  n_read_indoor (snd run) = 10%nat /\
  n_read_outdoor (snd run) = 10%nat.
Proof.
  exact (proj2 (scheduler_runs_for_ever 1.0%float (Some (BME680 0x76))
                  (Some W1ThermSensor) faulty_read_env)
           (fun n => eq_refl) (fun n => eq_refl)
           (fun n => ex_intro _ 18.0%float eq_refl) (fun n => I)
           10%nat initial_world).
Defined.


(** ** [main]: every way it ends *)

Lemma fails_recoverably_same env w w1 k :
  n_open_indoor w1 = n_open_indoor w ->
  fails_recoverably env w k -> fails_recoverably env w1 k.
Proof. intros Hn Hfail i Hi. rewrite Hn. exact (Hfail i Hi). Qed.

(** What [main] does once both acquisitions have returned. *)
Lemma main_after_acquisition fuel interval env w sensor_outdoor w1
    sensor_indoor w2 :
  get_outdoor_sensor env w = (Ok sensor_outdoor, w1) ->
  get_indoor_sensor fuel (SENSORS_SAMPLE_INTERVAL (config env)) env w1 =
    (Ok sensor_indoor, w2) ->
  main fuel interval env w =
  match sensor_outdoor with
  | Some _ =>
      (Err {| exc_type := NameError;
              exc_msg := "name 'sendor_indoor' is not defined" |}, w2)
  | None =>
      (Ok tt, emit (ELogError "Unable to acquire any sensor, exiting") w2)
  end.
Proof.
  intros Hout Hin. unfold main, bind, ask. rewrite Hout, Hin.
  destruct sensor_outdoor as [outdoor|]; reflexivity.
Qed.

(** X8. Once the indoor sensor is acquired, after [k] retried failures,
    [main] ends in one of two ways and in no other, by what the outdoor
    constructor did.  If it returned a handle, [main] ends with the
    [NameError] of [sendor_indoor]; if it raised an exception derived from
    [Exception], [main] logs "Unable to acquire any sensor, exiting" and
    returns.  In both cases the acquisition is all that happened before. *)
Theorem main_outcomes :
  forall (fuel k : nat) (interval : float) (env : Env) (w : World),
    (k < fuel)%nat ->
    fails_recoverably env w k ->
    BME680_new env (n_open_indoor w + k) = Returns tt ->
    let addr := SENSOR_INDOOR_I2C_ADDR (config env) in
    let acquisition :=
      [EOpenOutdoor]
      ++ retry_events addr (SENSORS_SAMPLE_INTERVAL (config env)) k
      ++ [EOpenIndoor addr] in
    let run := main fuel interval env w in
    match W1ThermSensor_new env (n_open_outdoor w) with
    | Returns _ =>
        fst run = Err {| exc_type := NameError;
                         exc_msg := "name 'sendor_indoor' is not defined" |} /\
        trace (snd run) = trace w ++ acquisition
    | Raises e =>
        exc_matches e [Exception] = true ->
        fst run = Ok tt /\
        trace (snd run) =
          trace w ++ acquisition
          ++ [ELogError "Unable to acquire any sensor, exiting"]
    end.
Proof.
  intros fuel k interval env w Hfuel Hfail Hopen addr acquisition run.
  subst run acquisition.
  set (w1 := count_open_outdoor (emit EOpenOutdoor w)).
  assert (Hn1 : n_open_indoor w1 = n_open_indoor w) by (destruct w; reflexivity).
  assert (Ht1 : trace w1 = trace w ++ [EOpenOutdoor]) by (destruct w; reflexivity).
  destruct (get_indoor_sensor_loop_retries
              (SENSORS_SAMPLE_INTERVAL (config env)) env k fuel w1 Hfuel
              (fails_recoverably_same env w w1 k Hn1 Hfail)
              ltac:(rewrite Hn1; exact Hopen))
    as (Hres & Htrace & _).
  fold addr in Hres, Htrace. rewrite Ht1, <- app_assoc in Htrace.
  assert (Hin : exists w2,
            get_indoor_sensor fuel (SENSORS_SAMPLE_INTERVAL (config env)) env w1
              = (Ok (Some (BME680 addr)), w2) /\
            trace w2 =
              trace w ++ [EOpenOutdoor]
              ++ retry_events addr (SENSORS_SAMPLE_INTERVAL (config env)) k
              ++ [EOpenIndoor addr]).
  { unfold get_indoor_sensor, bind.
    destruct (while_true fuel
                (get_indoor_sensor_pass (SENSORS_SAMPLE_INTERVAL (config env)))
                env w1) as [r w2].
    cbn [fst snd] in Hres, Htrace. subst r. exists w2.
    split; [reflexivity | exact Htrace]. }
  destruct Hin as (w2 & Hin & Htrace2).
  pose proof (get_outdoor_sensor_run env w) as Hout. fold w1 in Hout.
  destruct (W1ThermSensor_new env (n_open_outdoor w)) as [[]|e].
  - rewrite (main_after_acquisition _ _ _ _ _ _ _ _ Hout Hin).
    split; [reflexivity | exact Htrace2].
  - intros Hexc. rewrite Hexc in Hout.
    rewrite (main_after_acquisition _ _ _ _ _ _ _ _ Hout Hin).
    split; [reflexivity|]. cbn [snd].
    replace (trace (emit (ELogError "Unable to acquire any sensor, exiting") w2))
      with (trace w2 ++ [ELogError "Unable to acquire any sensor, exiting"])
      by (destruct w2; reflexivity).
    rewrite Htrace2, <- !app_assoc. reflexivity.
Qed.

(** At [retry_env] both sensors are there, the indoor one at the third
    attempt: [main] ends with the [NameError]. *)
Lemma main_outcomes_witness :
  let run := main 3 5.0%float retry_env initial_world in
  fst run = Err {| exc_type := NameError;
                   exc_msg := "name 'sendor_indoor' is not defined" |} /\
  trace (snd run) =
    [EOpenOutdoor]
    ++ retry_events 0x76 5.0%float 2
    ++ [EOpenIndoor 0x76].
Proof.
  exact (main_outcomes 3 2 5.0%float retry_env initial_world ltac:(lia)
           retry_env_fails_twice eq_refl).
Defined.

(** ** Recovery and failure inside a cycle *)

(** X10. The recovery from an I/O fault does not restore the oversampling
    the device was given: whatever its settings were, for one the level of
    an earlier [initalize_indoor_sensor], after a read that fails with an
    I/O fault and a re-initialisation whose four configuration calls return,
    the three oversampling settings are at the default [OS_8X], gas
    measurement is disabled, and the data of the device are the ones it
    had. *)
Theorem get_indoor_sample_recovery_resets_level :
  forall (sensor : IndoorSensor) (env : Env) (w : World) (e : exception),
    get_sensor_data env (n_read_indoor w) = Raises e ->
    io_fault e = true ->
    configure_returns env w 4 ->
    let run := get_indoor_sample sensor env w in
    fst run = Ok None /\
    indoor (snd run) =
      {| gas_status := Some DISABLE_GAS_MEAS;
         humidity_oversample := Some OS_8X;
         temperature_oversample := Some OS_8X;
         pressure_oversample := Some OS_8X;
         data := data (indoor w) |}.
Proof.
  intros sensor env w e Hread Hio Hcfg run. subst run.
  destruct w. cbn [n_read_indoor indoor data] in *. unfold io_fault in Hio.
  unfold configure_returns in Hcfg. cbn [n_configure] in Hcfg.
  run_program. rewrite Hread. run_program. rewrite Hio. run_program.
  configure_ok Hcfg. split; reflexivity.
Qed.

(** At [faulty_read_env], a device set to level 5 is back at [OS_8X]. *)
Lemma get_indoor_sample_recovery_resets_level_witness :
  let configured :=
    snd (initalize_indoor_sensor (BME680 0x76) 5 faulty_read_env
           initial_world) in
  humidity_oversample (indoor configured) = Some 5 /\
  humidity_oversample
    (indoor (snd (get_indoor_sample (BME680 0x76) faulty_read_env configured)))
    = Some OS_8X.
Proof.
  intros configured. split; [reflexivity|].
  destruct (get_indoor_sample_recovery_resets_level (BME680 0x76)
              faulty_read_env configured remote_io eq_refl eq_refl
              (fun i _ => eq_refl))
    as [_ Hdev].
  rewrite Hdev. reflexivity.
Defined.

(** X11. A cycle that raises is not padded and is the last one: the
    exception passes through [ensure_duration], which neither reads the
    clock a second time nor sleeps, and ends the scheduler loop with the
    world as the cycle left it. *)
Theorem scheduler_stops_on_exception :
  forall (fuel : nat) (interval : float)
         (indoor_sensor : option IndoorSensor)
         (outdoor_sensor : option OutdoorSensor) (env : Env) (w w1 : World)
         (e : exception),
    capture_sample indoor_sensor outdoor_sensor env (count_clock w) =
      (Err e, w1) ->
    ensure_duration interval (capture_sample indoor_sensor outdoor_sensor)
      env w = (Err e, w1) /\
    scheduler (S fuel) interval indoor_sensor outdoor_sensor env w =
      (Err e, w1).
Proof.
  intros fuel interval indoor_sensor outdoor_sensor env w w1 e Hcycle.
  assert (Hpad : ensure_duration interval
                   (capture_sample indoor_sensor outdoor_sensor) env w =
                 (Err e, w1)).
  { unfold ensure_duration, bind, time_monotonic. rewrite Hcycle.
    reflexivity. }
  split; [exact Hpad|].
  unfold scheduler. cbn [while_true]. unfold bind at 1 2.
  rewrite Hpad. reflexivity.
Qed.

(** At [bad_read_env] the first cycle raises: one clock reading, one read,
    and the loop is over, however many cycles it was given. *)
Lemma scheduler_stops_on_exception_witness :
  scheduler 100 1.0%float (Some (BME680 0x76)) (Some W1ThermSensor)
    bad_read_env initial_world =
  (Err bad_value,
   count_read_indoor (emit EGetSensorData (count_clock initial_world))).
Proof.
  exact (proj2 (scheduler_stops_on_exception 99 1.0%float
                  (Some (BME680 0x76)) (Some W1ThermSensor) bad_read_env
                  initial_world _ bad_value eq_refl)).
Defined.
